(** * Product-Info-Extractor: the extraction engine and the /extract handler

    A shallow embedding of [src/app.py].  Python [str] values are lists of
    Unicode code points, so that [len], slicing, [strip] and the regular
    expressions of the price resolver act on the same units as in Python.
    The libraries the program calls ([requests], [bs4], [json],
    [urllib.parse.urljoin]) are collaborators: they are variables of the
    section that holds the engine, and the engine is the decision logic
    that app.py layers on top of them. *)

From Stdlib Require Import NArith ZArith String Ascii Bool Lia PrimFloat List.
Import ListNotations.
Local Open Scope list_scope.

(** ** Text *)

Module Text.

(** A Python [str]: a sequence of code points. *)
Definition char := N.
Definition str := list char.

(** ASCII literals. *)
Fixpoint u (s : string) : str :=
  match s with
  | EmptyString => []
  | String a r => N_of_ascii a :: u r
  end.

Definition dq : char := 34%N.      (* the double quote *)
Definition euro : char := 8364%N.  (* U+20AC *)
Definition pound : char := 163%N.  (* U+00A3 *)

Definition str_eqb (a b : str) : bool :=
  if list_eq_dec N.eq_dec a b then true else false.

Lemma str_eqb_eq a b : str_eqb a b = true <-> a = b.
Proof.
  unfold str_eqb. destruct (list_eq_dec N.eq_dec a b); split; congruence.
Qed.

(** Python truthiness of a [str]. *)
Definition nonempty (s : str) : bool :=
  match s with [] => false | _ :: _ => true end.

Definition in_ranges (c : char) (l : list (N * N)) : bool :=
  existsb (fun r => (fst r <=? c)%N && (c <=? snd r)%N) l.

(** [str.isspace] for one character, which is also what [\s] matches in a
    [str] pattern and what [str.strip()] removes (CPython 3.11,
    Unicode 14). *)
Definition isspace (c : char) : bool :=
  in_ranges c
    [(9, 13); (28, 32); (133, 133); (160, 160); (5760, 5760);
     (8192, 8202); (8232, 8233); (8239, 8239); (8287, 8287);
     (12288, 12288)]%N.

(** What [\d] matches in a [str] pattern: the characters of category Nd
    (CPython 3.11, Unicode 14). *)
Definition isdecimal (c : char) : bool :=
  in_ranges c
    [(48, 57); (1632, 1641); (1776, 1785); (1984, 1993); (2406, 2415);
     (2534, 2543); (2662, 2671); (2790, 2799); (2918, 2927); (3046, 3055);
     (3174, 3183); (3302, 3311); (3430, 3439); (3558, 3567); (3664, 3673);
     (3792, 3801); (3872, 3881); (4160, 4169); (4240, 4249); (6112, 6121);
     (6160, 6169); (6470, 6479); (6608, 6617); (6784, 6793); (6800, 6809);
     (6992, 7001); (7088, 7097); (7232, 7241); (7248, 7257);
     (42528, 42537); (43216, 43225); (43264, 43273); (43472, 43481);
     (43504, 43513); (43600, 43609); (44016, 44025); (65296, 65305);
     (66720, 66729); (68912, 68921); (69734, 69743); (69872, 69881);
     (69942, 69951); (70096, 70105); (70384, 70393); (70736, 70745);
     (70864, 70873); (71248, 71257); (71360, 71369); (71472, 71481);
     (71904, 71913); (72016, 72025); (72784, 72793); (73040, 73049);
     (73120, 73129); (92768, 92777); (92864, 92873); (93008, 93017);
     (120782, 120831); (123200, 123209); (123632, 123641);
     (125264, 125273); (130032, 130041)]%N.

Fixpoint lstrip (s : str) : str :=
  match s with
  | c :: s' => if isspace c then lstrip s' else s
  | [] => []
  end.

Definition rstrip (s : str) : str := rev (lstrip (rev s)).

(** [s.strip()] *)
Definition strip (s : str) : str := rstrip (lstrip s).

Fixpoint starts_with (p s : str) : bool :=
  match p, s with
  | [], _ => true
  | a :: p', b :: s' => (a =? b)%N && starts_with p' s'
  | _ :: _, [] => false
  end.

(** [x in s] for two strings. *)
Fixpoint contains (x s : str) : bool :=
  starts_with x s ||
  match s with
  | [] => false
  | _ :: s' => contains x s'
  end.

End Text.
Export Text.

(** ** Regular expressions

    The patterns of app.py are sequences of single-character classes,
    each taken once or under [?], [*] or [+], with one capture group.
    [rx] is the backtracking matcher of Python's [re] on that fragment:
    quantifiers are greedy and give characters back one at a time. *)

Module Re.

Inductive quant := Once | Opt | Star | Plus.

Inductive item :=
| Ch (cls : char -> bool) (q : quant)
| Open     (* the opening parenthesis of group 1 *)
| Close.   (* its closing parenthesis *)

Definition regex := list item.

(** A match, by offsets from its first character. *)
Record span := { m_end : nat; g_start : nat; g_end : nat }.

(** A class under [*]: as many characters as there are, then the rest of
    the pattern [k]; when [k] fails, one character fewer. *)
Fixpoint greedy (cls : char -> bool) (k : str -> nat -> option span)
  (s : str) (n : nat) : option span :=
  match s with
  | c :: s' =>
      if cls c then
        match greedy cls k s' (S n) with
        | Some r => Some r
        | None => k s n
        end
      else k s n
  | [] => k s n
  end.

Fixpoint rx (p : regex) (gs ge : nat) (s : str) (n : nat) {struct p}
  : option span :=
  match p with
  | [] => Some {| m_end := n; g_start := gs; g_end := ge |}
  | Open :: p' => rx p' n ge s n
  | Close :: p' => rx p' gs n s n
  | Ch cls Once :: p' =>
      match s with
      | c :: s' => if cls c then rx p' gs ge s' (S n) else None
      | [] => None
      end
  | Ch cls Opt :: p' =>
      match s with
      | c :: s' =>
          if cls c then
            match rx p' gs ge s' (S n) with
            | Some r => Some r
            | None => rx p' gs ge s n
            end
          else rx p' gs ge s n
      | [] => rx p' gs ge s n
      end
  | Ch cls Star :: p' => greedy cls (rx p' gs ge) s n
  | Ch cls Plus :: p' =>
      match s with
      | c :: s' => if cls c then greedy cls (rx p' gs ge) s' (S n) else None
      | [] => None
      end
  end.

(** [pattern.match] at the start of [s]. *)
Definition match_here (p : regex) (s : str) : option span := rx p 0 0 s 0.

(** A match object: [group(0)] and [group(1)]. *)
Record match_obj := { group0 : str; group1 : str }.

Definition slice (s : str) (a b : nat) : str := firstn (b - a) (skipn a s).

Definition mk_match (s : str) (m : span) : match_obj :=
  {| group0 := firstn (m_end m) s;
     group1 := slice s (g_start m) (g_end m) |}.

(** [re.search(p, s)]: the match at the leftmost position that has one. *)
Fixpoint search (p : regex) (s : str) : option match_obj :=
  match match_here p s with
  | Some m => Some (mk_match s m)
  | None =>
      match s with
      | [] => None
      | _ :: s' => search p s'
      end
  end.

Definition lit (s : str) : regex := map (fun c => Ch (N.eqb c) Once) s.

Definition one_of (l : list char) (c : char) : bool :=
  existsb (N.eqb c) l.

(** A letter of the word [price] under [re.I]: the letter and its capital,
    and for [i] also U+0130 and U+0131, which [sre] folds to it. *)
Definition ci (lower : char) (c : char) : bool :=
  if (lower =? 105)%N then one_of [73; 105; 304; 305]%N c
  else (c =? lower)%N || (c =? lower - 32)%N.

Definition lit_ci (s : str) : regex := map (fun c => Ch (ci c) Once) s.

End Re.

(** ** Python values and exceptions *)

Module Py.

(** The values [json.loads] builds, which are also the values the handler
    passes to [jsonify]. *)
#[local] Set Warnings "-register-all".
Inductive pyval :=
| PNone
| PBool (b : bool)
| PInt (z : Z)
| PFloat (f : float)
| PStr (s : str)
| PList (l : list pyval)
| PDict (d : list (str * pyval)).

Inductive exn :=
| TypeError | IndexError | KeyError | ValueError
| JSONDecodeError | RequestException | HTTPError | ParserError.

(** The outcome of a statement that may raise. *)
Inductive result (A : Type) :=
| Ret (a : A)
| Raise (e : exn).
Arguments Ret {A} a.
Arguments Raise {A} e.

Definition bind {A B} (c : result A) (f : A -> result B) : result B :=
  match c with
  | Ret a => f a
  | Raise e => Raise e
  end.

Fixpoint lookup {V} (k : str) (d : list (str * V)) : option V :=
  match d with
  | [] => None
  | (k', v) :: d' => if str_eqb k' k then Some v else lookup k d'
  end.

Definition is_key {V} (k : str) (d : list (str * V)) : bool :=
  match lookup k d with Some _ => true | None => false end.

Definition is_str (k : str) (v : pyval) : bool :=
  match v with PStr s => str_eqb s k | _ => false end.

(** [k in v] for a string [k]. *)
Definition py_in (k : str) (v : pyval) : result bool :=
  match v with
  | PDict d => Ret (is_key k d)
  | PList l => Ret (existsb (is_str k) l)
  | PStr s => Ret (contains k s)
  | _ => Raise TypeError
  end.

(** [v[k]] for a string [k]. *)
Definition py_getitem (v : pyval) (k : str) : result pyval :=
  match v with
  | PDict d =>
      match lookup k d with
      | Some x => Ret x
      | None => Raise KeyError
      end
  | _ => Raise TypeError
  end.

(** [v[0]] for a list [v]. *)
Definition py_first (l : list pyval) : result pyval :=
  match l with
  | x :: _ => Ret x
  | [] => Raise IndexError
  end.

End Py.
Export Py.

Declare Scope py_scope.
Notation "x <- c ;; k" := (bind c (fun x => k))
  (at level 61, c at next level, right associativity) : py_scope.
Local Open Scope py_scope.

(** ** The parsed page *)

Module Page.

(** A [bs4] tag, by what app.py observes of it: its name, its attribute
    dictionary, [get_text()] and [.string].  The value of [class], which
    [bs4] splits at white space, is kept whole: a pattern without white
    space matches one of the parts exactly when it matches the whole. *)
Record Tag := {
  name : str;
  attrs : list (str * str);
  get_text : str;
  string_ : option str
}.

(** The tags of the tree in document order, which is the order in which
    [find] and [find_all] visit them. *)
Definition Soup := list Tag.

(** [tag.get(k)] *)
Definition get (t : Tag) (k : str) : option str := lookup k (attrs t).

(** Truthiness of [tag.get(k)]. *)
Definition has_value (t : Tag) (k : str) : bool :=
  match get t k with Some v => nonempty v | None => false end.

(** [tag[k]], read after [tag.get(k)] was found truthy. *)
Definition item (t : Tag) (k : str) : str :=
  match get t k with Some v => v | None => [] end.

Definition named (n : string) (t : Tag) : bool := str_eqb (name t) (u n).

(** An attribute filter with a string: the attribute is there and equal. *)
Definition attr_is (k v : string) (t : Tag) : bool :=
  match get t (u k) with Some x => str_eqb x (u v) | None => false end.

(** An attribute filter with a compiled pattern: the attribute is there
    and the pattern is found in it. *)
Definition attr_search (k : string) (p : Re.regex) (t : Tag) : bool :=
  match get t (u k) with
  | Some x => match Re.search p x with Some _ => true | None => false end
  | None => false
  end.

Definition find (f : Tag -> bool) (soup : Soup) : option Tag :=
  List.find f soup.

Definition find_all (f : Tag -> bool) (soup : Soup) : list Tag :=
  List.filter f soup.

End Page.
Export Page.

(** ** The patterns of the price resolver *)

Module Patterns.
Import Re.

(** In the comments below a pattern is quoted with ' for the double quote
    and a blank before a closing parenthesis. *)
Definition ws : item := Ch isspace Star.
Definition dot : char := 46%N.
Definition comma : char := 44%N.
Definition dollar : char := 36%N.

(** [(\d+\.?\d* )] *)
Definition number : regex :=
  [Open; Ch isdecimal Plus; Ch (N.eqb dot) Opt; Ch isdecimal Star; Close].

(** ['price':\s*\{\s*'current':\s*(\d+\.?\d* )] *)
Definition price_current : regex :=
  lit (dq :: u "price" ++ dq :: u ":") ++ ws :: lit (u "{") ++ ws ::
  lit (dq :: u "current" ++ dq :: u ":") ++ ws :: number.

(** ['currentPrice':\s*(\d+\.?\d* )] *)
Definition currentPrice : regex :=
  lit (dq :: u "currentPrice" ++ dq :: u ":") ++ ws :: number.

(** ['price':\s*(\d+\.?\d* )] *)
Definition price_number : regex :=
  lit (dq :: u "price" ++ dq :: u ":") ++ ws :: number.

(** [price':\s*'?\$?(\d+\.?\d* )'?] *)
Definition price_loose : regex :=
  lit (u "price" ++ dq :: u ":") ++ ws :: Ch (N.eqb dq) Opt ::
  Ch (N.eqb dollar) Opt :: number ++ [Ch (N.eqb dq) Opt].

Definition price_patterns : list regex :=
  [price_current; currentPrice; price_number; price_loose].

(** The currency symbols of the selector pattern. *)
Definition currency (c : char) : bool := one_of [dollar; euro; pound] c.

(** [[\$ U+20AC U+00A3]?\s*(\d+[,.]?\d*\.?\d* )] *)
Definition selector_price : regex :=
  [Ch currency Opt; ws; Open; Ch isdecimal Plus;
   Ch (one_of [comma; dot]) Opt; Ch isdecimal Star; Ch (N.eqb dot) Opt;
   Ch isdecimal Star; Close].

(** [re.compile(r'price', re.I)] *)
Definition price_word : regex := lit_ci (u "price").

End Patterns.

(** ** The extraction engine *)

Module Engine.

(** [product_info]: a dictionary with these five keys throughout. *)
Record ProductInfo := {
  image : option str;
  title : option str;
  price : option str;
  description : option str;
  url : str
}.

(** What app.py reads of a [requests] response. *)
Record Response := {
  status_code : Z;
  content : list Byte.byte;
  text : str
}.

(** [response.raise_for_status()]: [requests] raises [HTTPError] for the
    client and server error codes, 400 to 599, and for no other. *)
Definition raise_for_status (r : Response) : result unit :=
  if ((400 <=? status_code r) && (status_code r <? 600))%Z
  then Raise HTTPError else Ret tt.

(** Truthiness of an optional string ([None] and the empty string are
    false). *)
Definition truthy (v : option str) : bool :=
  match v with Some s => nonempty s | None => false end.

Definition prefix_dollar (s : str) : str := Patterns.dollar :: s.

Section Collaborators.

(** [requests.get(url, headers=..., timeout=10)] *)
Variable requests_get : str -> result Response.
(** [BeautifulSoup(content, 'html.parser')] *)
Variable BeautifulSoup : list Byte.byte -> result Soup.
(** [json.loads] on a string *)
Variable json_loads : str -> result pyval.
(** the text a value gets in an f-string, [format(v, '')] *)
Variable py_format : pyval -> str.
(** [urllib.parse.urljoin(base, ref)] *)
Variable urljoin : str -> str -> result str.

(** A tag found by [find] is truthy, so [tag and tag.get(k)] is the
    truthiness of the attribute of a tag that was found. *)
Definition found_with (t : option Tag) (k : string) : bool :=
  match t with Some t => has_value t (u k) | None => false end.

Definition item_of (t : option Tag) (k : string) : str :=
  match t with Some t => item t (u k) | None => [] end.

Definition meta_property (v : string) (t : Tag) : bool :=
  named "meta" t && attr_is "property" v t.

Definition meta_name (v : string) (t : Tag) : bool :=
  named "meta" t && attr_is "name" v t.

(** *** Image (lines 34-51) *)

(** The filter of [large_images]. *)
Definition is_large (img : Tag) : bool :=
  has_value img (u "src") &&
  negb (existsb (fun x => contains x (item img (u "src")))
          [u "icon"; u "logo"; u "sprite"]).

Definition extract_image (url : str) (soup : Soup) : result (option str) :=
  let og_image := find (meta_property "og:image") soup in
  if found_with og_image "content" then
    Ret (Some (item_of og_image "content"))
  else
    let twitter_image := find (meta_name "twitter:image") soup in
    if found_with twitter_image "content" then
      Ret (Some (item_of twitter_image "content"))
    else
      let images := find_all (named "img") soup in
      let large_images := filter is_large images in
      match large_images with
      | img :: _ =>
          let img_src := item img (u "src") in
          joined <- urljoin url img_src ;;
          Ret (Some joined)
      | [] => Ret None
      end.

(** *** Title (lines 53-64) *)

Definition extract_title (soup : Soup) : option str :=
  let og_title := find (meta_property "og:title") soup in
  if found_with og_title "content" then
    Some (item_of og_title "content")
  else
    match find (named "title") soup with
    | Some title_tag => Some (strip (get_text title_tag))
    | None =>
        match find (named "h1") soup with
        | Some h1_tag => Some (strip (get_text h1_tag))
        | None => None
        end
    end.

(** *** Price, method 1: JSON-LD (lines 68-85) *)

(** The body of the [try] for one script block: the price it assigns
    before [break], if any. *)
Definition jsonld_price (script : Tag) : result (option str) :=
  data <- match string_ script with
          | Some s => json_loads s
          | None => Raise TypeError
          end ;;
  data <- match data with
          | PList l => py_first l
          | _ => Ret data
          end ;;
  has_offers <- py_in (u "offers") data ;;
  if has_offers then
    offers <- py_getitem data (u "offers") ;;
    match offers with
    | PDict o =>
        match lookup (u "price") o with
        | Some p => Ret (Some (prefix_dollar (py_format p)))
        | None => Ret None
        end
    | PList (first :: _) =>
        has_price <- py_in (u "price") first ;;
        if has_price then
          p <- py_getitem first (u "price") ;;
          Ret (Some (prefix_dollar (py_format p)))
        else Ret None
    | _ => Ret None
    end
  else Ret None.

(** The loop over the script blocks: a block that raises, or that assigns
    nothing, is passed over; the first that assigns ends the loop. *)
Fixpoint jsonld_scan (scripts : list Tag) : option str :=
  match scripts with
  | [] => None
  | script :: rest =>
      match jsonld_price script with
      | Ret (Some p) => Some p
      | Ret None => jsonld_scan rest
      | Raise _ => jsonld_scan rest
      end
  end.

Definition ld_json_script (t : Tag) : bool :=
  named "script" t && attr_is "type" "application/ld+json" t.

Definition price_method1 (soup : Soup) : option str :=
  jsonld_scan (find_all ld_json_script soup).

(** *** Price, method 2: meta tag (lines 87-91) *)

Definition price_method2 (soup : Soup) (price : option str) : option str :=
  if negb (truthy price) then
    let price_meta := find (meta_property "product:price:amount") soup in
    if found_with price_meta "content" then
      Some (prefix_dollar (item_of price_meta "content"))
    else price
  else price.

(** *** Price, method 3: the raw text (lines 93-106) *)

Fixpoint pattern_scan (patterns : list Re.regex) (html_text : str)
  : option str :=
  match patterns with
  | [] => None
  | pattern :: rest =>
      match Re.search pattern html_text with
      | Some m => Some (prefix_dollar (Re.group1 m))
      | None => pattern_scan rest html_text
      end
  end.

Definition price_method3 (html_text : str) (price : option str)
  : option str :=
  if negb (truthy price) then
    match pattern_scan Patterns.price_patterns html_text with
    | Some p => Some p
    | None => price
    end
  else price.

(** *** Price, method 4: selectors (lines 108-125) *)

Definition price_selectors (soup : Soup) : list (option Tag) :=
  [ find (fun t => named "span" t && attr_is "itemprop" "price" t) soup;
    find (fun t => named "meta" t && attr_is "itemprop" "price" t) soup;
    find (fun t => named "span" t &&
                   attr_search "data-test" Patterns.price_word t) soup;
    find (attr_search "class" Patterns.price_word) soup;
    find (fun t => named "span" t &&
                   attr_search "class" Patterns.price_word t) soup ].

(** [price_text] of a candidate that was found. *)
Definition price_text (price_elem : Tag) : option str :=
  if named "meta" price_elem then get price_elem (u "content")
  else Some (get_text price_elem).

(** The price one candidate assigns before [break], if any. *)
Definition selector_price_of (price_elem : option Tag) : option str :=
  match price_elem with
  | Some e =>
      let t := price_text e in
      if truthy t then
        match t with
        | Some txt =>
            match Re.search Patterns.selector_price txt with
            | Some price_match => Some (strip (Re.group0 price_match))
            | None => None
            end
        | None => None
        end
      else None
  | None => None
  end.

Fixpoint selector_scan (elems : list (option Tag)) : option str :=
  match elems with
  | [] => None
  | price_elem :: rest =>
      match selector_price_of price_elem with
      | Some p => Some p
      | None => selector_scan rest
      end
  end.

Definition price_method4 (soup : Soup) (price : option str) : option str :=
  if negb (truthy price) then
    match selector_scan (price_selectors soup) with
    | Some p => Some p
    | None => price
    end
  else price.

Definition extract_price (soup : Soup) (html_text : str) : option str :=
  price_method4 soup
    (price_method3 html_text
       (price_method2 soup
          (price_method1 soup))).

(** *** Description (lines 127-138) *)

Definition extract_description (soup : Soup) : option str :=
  let og_desc := find (meta_property "og:description") soup in
  if found_with og_desc "content" then
    Some (item_of og_desc "content")
  else
    let meta_desc := find (meta_name "description") soup in
    if found_with meta_desc "content" then
      Some (item_of meta_desc "content")
    else
      match find (fun t => attr_is "itemprop" "description" t) soup with
      | Some schema_desc => Some (firstn 500 (strip (get_text schema_desc)))
      | None => None
      end.

(** *** The engine (lines 10-143) *)

(** The four resolvers over one parsed page. *)
Definition resolve (url : str) (soup : Soup) (html_text : str)
  : result ProductInfo :=
  img <- extract_image url soup ;;
  Ret {| image := img;
         title := extract_title soup;
         price := extract_price soup html_text;
         description := extract_description soup;
         url := url |}.

(** The body of the outer [try]. *)
Definition extract_body (url : str) : result ProductInfo :=
  response <- requests_get url ;;
  _ <- raise_for_status response ;;
  soup <- BeautifulSoup (content response) ;;
  let html_text := text response in
  resolve url soup html_text.

(** [extract_product_info(url)]: [None] is the [return None] of the
    [except] clause. *)
Definition extract_product_info (url : str) : option ProductInfo :=
  match extract_body url with
  | Ret product_info => Some product_info
  | Raise _ => None
  end.

(** *** The /extract handler (lines 146-193) *)

Definition opt_json (v : option str) : pyval :=
  match v with Some s => PStr s | None => PNone end.

Definition missing_url_body : pyval :=
  PDict [ (u "success", PBool false);
          (u "error", PStr (u "Missing required parameter: url"));
          (u "message", PStr (u "Please provide a product URL")) ].

Definition success_body (p : ProductInfo) : pyval :=
  PDict [ (u "success", PBool true);
          (u "data", PDict [ (u "title", opt_json (title p));
                             (u "price", opt_json (price p));
                             (u "image", opt_json (image p));
                             (u "description", opt_json (description p));
                             (u "url", PStr (url p)) ]) ].

Definition failure_body (url : str) : pyval :=
  PDict [ (u "success", PBool false);
          (u "error", PStr (u "Could not extract product information"));
          (u "message",
           PStr (u "The site may be blocking scrapers or the URL is invalid"));
          (u "data", PDict [ (u "title", PNone);
                             (u "price", PNone);
                             (u "image", PNone);
                             (u "description", PNone);
                             (u "url", PStr url) ]) ].

(** One run of the handler: the dictionary given to [jsonify], the status
    code, and the URLs the engine was called with. *)
Record Run := {
  body : pyval;
  status : Z;
  engine_calls : list str
}.

(** [api_extract_product()], with [request.args.get('url')] as argument. *)
Definition api_extract_product (arg : option str) : Run :=
  if negb (truthy arg) then
    {| body := missing_url_body; status := 400; engine_calls := [] |}
  else
    let url := match arg with Some s => s | None => [] end in
    let product_info := extract_product_info url in
    match product_info with
    | Some p =>
        if truthy (image p) || truthy (title p) then
          {| body := success_body p; status := 200; engine_calls := [url] |}
        else
          {| body := failure_body url; status := 404; engine_calls := [url] |}
    | None =>
        {| body := failure_body url; status := 404; engine_calls := [url] |}
    end.

End Collaborators.
End Engine.

(** ** Pages and collaborators for closed examples *)

Module Fixture.
Import Engine.

Definition tag (n : string) (a : list (str * str)) (txt : str)
  (s : option str) : Tag :=
  {| name := u n; attrs := a; get_text := txt; string_ := s |}.

(** A tag without children. *)
Definition void (n : string) (a : list (str * str)) : Tag :=
  tag n a [] None.

(** A tag whose one child is a string. *)
Definition leaf (n : string) (a : list (str * str)) (txt : string) : Tag :=
  tag n a (u txt) (Some (u txt)).

Definition base_url : str := u "https://shop.example/p/1".

(** [urljoin] on the one pair of the specification's example. *)
Definition urljoin (base ref : str) : result str :=
  if str_eqb base base_url && str_eqb ref (u "/img/a.jpg")
  then Ret (u "https://shop.example/img/a.jpg")
  else Raise ValueError.

(** The JSON-LD document of the specification's example,
    with its one float. *)
Definition offer_doc : str :=
  u "{" ++ dq :: u "offers" ++ dq :: u ":{" ++ dq :: u "price" ++
  dq :: u ": 12.5}}".

Definition offer_val : pyval :=
  PDict [(u "offers", PDict [(u "price", PFloat 12.5%float)])].

(** [json.loads] on [offer_doc]; the other strings the examples hand it
    are not JSON. *)
Definition json_loads (s : str) : result pyval :=
  if str_eqb s offer_doc then Ret offer_val else Raise JSONDecodeError.

(** [format] on the values of the examples: a string is itself, and 12.5
    prints as its shortest representation. *)
Definition py_format (v : pyval) : str :=
  match v with
  | PStr s => s
  | PFloat f => if PrimFloat.eqb f 12.5%float then u "12.5" else []
  | _ => []
  end.

Definition encode (s : str) : list Byte.byte :=
  map (fun c => match Byte.of_N c with
                | Some b => b
                | None => Byte.x3f
                end) s.

(** A site that answers every request with [status] and [raw]. *)
Definition serve (status : Z) (raw : str) (_ : str) : result Response :=
  Ret {| status_code := status; content := encode raw; text := raw |}.

(** A parser run whose tree is [soup]. *)
Definition parsed (soup : Soup) (_ : list Byte.byte) : result Soup :=
  Ret soup.

(** [<meta property='og:title' content=''><title>Widget</title>] *)
Definition empty_og_title_page : Soup :=
  [ void "meta" [(u "property", u "og:title"); (u "content", [])];
    leaf "title" [] "Widget" ].

(** [<title></title><h1>Widget</h1>] *)
Definition empty_title_page : Soup :=
  [ void "title" []; leaf "h1" [] "Widget" ].

(** [<meta property='og:image' content='/img/a.jpg'>] *)
Definition og_image_page : Soup :=
  [ void "meta" [(u "property", u "og:image");
                 (u "content", u "/img/a.jpg")] ].

(** [<img src='/logo.png'><img src='/img/a.jpg'>] *)
Definition img_page : Soup :=
  [ void "img" [(u "src", u "/logo.png")];
    void "img" [(u "src", u "/img/a.jpg")] ].

(** A JSON-LD script block with [doc] as its content. *)
Definition ld_script (doc : str) : Tag :=
  tag "script" [(u "type", u "application/ld+json")] doc (Some doc).

Definition ld_open : str :=
  u "<script type=" ++ dq :: u "application/ld+json" ++ dq :: u ">".

(** Two JSON-LD blocks: the first is not JSON, the second is the
    document of the example. *)
Definition jsonld_page : Soup :=
  [ ld_script (u "{not json"); ld_script offer_doc ].

Definition jsonld_raw : str :=
  ld_open ++ u "{not json</script>" ++ ld_open ++ offer_doc ++
  u "</script>".

(** A response body that is the JSON object with [currentPrice] set to
    the number written [num]. *)
Definition current_price_raw (num : string) : str :=
  u "{" ++ dq :: u "currentPrice" ++ dq :: u ": " ++ u num ++ u "}".

(** The markup of an opening tag with one attribute. *)
Definition open_tag (n k v : string) : str :=
  u "<" ++ u n ++ u " " ++ u k ++ u "=" ++ dq :: u v ++ dq :: u ">".

Definition price_span (txt : string) : Tag :=
  leaf "span" [(u "itemprop", u "price")] txt.

(** A page whose price is in a span element, without a currency symbol. *)
Definition span_price_page : Soup := [ price_span "19.99" ].

Definition span_price_raw : str :=
  open_tag "span" "itemprop" "price" ++ u "19.99</span>".

(** A page with two price candidates: the text of the span element has
    no number, the content of the meta element is a price. *)
Definition price_meta : Tag :=
  void "meta" [(u "itemprop", u "price"); (u "content", u "$5")].

Definition two_candidates_page : Soup :=
  [ price_span "call us"; price_meta ].

Definition two_candidates_raw : str :=
  open_tag "span" "itemprop" "price" ++ u "call us</span>" ++
  u "<meta itemprop=" ++ dq :: u "price" ++ dq :: u " content=" ++
  dq :: u "$5" ++ dq :: u ">".

(** A response body with [currentPrice] twice: 12 first, then 9.99 in a
    nested object. *)
Definition current_price_twice_raw : str :=
  u "{" ++ dq :: u "currentPrice" ++ dq :: u ": 12, " ++
  dq :: u "was" ++ dq :: u ": {" ++
  dq :: u "currentPrice" ++ dq :: u ": 9.99}}".

(** [<title>Widget</title>] *)
Definition title_page : Soup := [ leaf "title" [] "Widget" ].
Definition title_raw : str := u "<title>Widget</title>".

(** [<title></title>] *)
Definition blank_title_page : Soup := [ void "title" [] ].
Definition blank_title_raw : str := u "<title></title>".

(** A page whose only tag is an og:description meta element. *)
Definition og_description_page (c : str) : Soup :=
  [ void "meta" [(u "property", u "og:description");
                         (u "content", c)] ].

(** [<meta property='og:title' content='Gadget'><title>Widget</title>
    <h1>Other</h1>] *)
Definition og_title_page : Soup :=
  [ void "meta" [(u "property", u "og:title"); (u "content", u "Gadget")];
    leaf "title" [] "Widget";
    leaf "h1" [] "Other" ].

(** A div element with itemprop=description whose text is 600 letters
    between white space. *)
Definition long_text : str := u "  " ++ repeat 120%N 600 ++ u " ".

Definition long_description_page : Soup :=
  [ tag "div" [(u "itemprop", u "description")] long_text
      (Some long_text) ].

End Fixture.

(** ** URLs *)

Definition is_alpha (c : char) : bool :=
  ((65 <=? c) && (c <=? 90) || (97 <=? c) && (c <=? 122))%N.

Definition is_scheme_char (c : char) : bool :=
  is_alpha c || ((48 <=? c) && (c <=? 57))%N ||
  Re.one_of [43; 45; 46]%N c.

Fixpoint scheme_then_colon (s : str) : bool :=
  match s with
  | [] => false
  | c :: s' => (c =? 58)%N || (is_scheme_char c && scheme_then_colon s')
  end.

(** An absolute URL starts with a scheme and a colon (RFC 3986, 4.3). *)
Definition is_absolute (s : str) : bool :=
  match s with
  | c :: s' => is_alpha c && scheme_then_colon s'
  | [] => false
  end.

(** ** The text of the specification's example for method 3 *)

(** ['currentPrice': 9.99], with the double quotes. *)
Definition current_price_999 : str :=
  dq :: u "currentPrice" ++ dq :: u ": 9.99".

Definition starts_with_decimal (s : str) : bool :=
  match s with
  | c :: _ => isdecimal c
  | [] => false
  end.

(** ** The vocabulary of the properties *)

Import Engine.

Section Vocabulary.
Variable json_loads : str -> result pyval.
Variable py_format : pyval -> str.

Local Abbreviation jsonld_price := (jsonld_price json_loads py_format).
Local Abbreviation price_method1 :=
  (price_method1 json_loads py_format).
Local Abbreviation extract_price :=
  (extract_price json_loads py_format).

(** The content of a script block is not JSON, or the block has no
    single string as content. *)
Definition fails_to_parse (b : Tag) : Prop :=
  match string_ b with
  | Some s => exists e, json_loads s = Raise e
  | None => True
  end.

(** A block the loop passes over. *)
Definition passed_over (b : Tag) : Prop :=
  fails_to_parse b \/ forall q, jsonld_price b <> Ret (Some q).

(** The price after methods 1, 2 and 3. *)
Definition methods123 (soup : Soup) (html_text : str) : option str :=
  price_method3 html_text (price_method2 soup (price_method1 soup)).

(** The record the four resolvers assemble. *)
Definition assembled (url : str) (soup : Soup) (html_text : str)
  (img : option str) : ProductInfo :=
  {| image := img;
     title := extract_title soup;
     price := extract_price soup html_text;
     description := extract_description soup;
     url := url |}.

End Vocabulary.

(** The text of a candidate of method 4 in the words of the
    specification: the content attribute of a meta element, the trimmed
    text of any other element. *)
Definition candidate_text (e : Tag) : option str :=
  if named "meta" e then get e (u "content")
  else Some (strip (get_text e)).

(** What method 4 makes of the text of a candidate. *)
Definition text_price (txt : str) : option str :=
  if nonempty txt then
    match Re.search Patterns.selector_price txt with
    | Some price_match => Some (strip (Re.group0 price_match))
    | None => None
    end
  else None.

Definition trimmed_match (mo : option Re.match_obj) : option str :=
  option_map (fun m => strip (Re.group0 m)) mo.

(** ** Notions for the proofs about the matcher *)

(** What a continuation must satisfy for the end of a match to lie
    between the position reached and the end of the text. *)
Definition bounded (k : str -> nat -> option Re.span) : Prop :=
  forall s n r, k s n = Some r -> n <= Re.m_end r <= n + length s.

(** Two continuations that agree up to the position they start from. *)
Definition shifted (k k' : str -> nat -> option Re.span) : Prop :=
  forall s n,
    match k s (S n), k' s n with
    | Some m, Some m' => Re.m_end m = S (Re.m_end m')
    | None, None => True
    | _, _ => False
    end.

(** No class of the pattern takes the character [c]. *)
Fixpoint rejects (c : char) (p : Re.regex) : Prop :=
  match p with
  | [] => True
  | Re.Ch cls _ :: p' => cls c = false /\ rejects c p'
  | _ :: p' => rejects c p'
  end.

Definition blind (c : char) (k : str -> nat -> option Re.span) : Prop :=
  forall s n, k (s ++ [c]) n = k s n.

(** The selector pattern after its optional currency symbol, and after
    the first run of digits. *)
Definition after_symbol : Re.regex := tl Patterns.selector_price.
Definition after_digits : Re.regex := skipn 3 after_symbol.

(** The selector pattern from its group on. *)
Definition from_group : Re.regex := tl after_symbol.

(** No range of [l1] meets a range of [l2]. *)
Definition apart (l1 l2 : list (N * N)) : bool :=
  forallb (fun r1 =>
    forallb (fun r2 => (snd r1 <? fst r2)%N || (snd r2 <? fst r1)%N) l2) l1.

(** ** The informational endpoints (lines 195-250) *)

Module Service.

(** [health_check()]: the dictionary given to [jsonify] and the status. *)
Definition health_check : pyval * Z :=
  (PDict [ (u "status", PStr (u "healthy"));
           (u "service", PStr (u "Product Information Extractor API"));
           (u "version", PStr (u "1.0.0")) ],
   200%Z).

(** [home()] *)
Definition home : pyval * Z :=
  (PDict
     [ (u "name", PStr (u "Product Information Extractor API"));
       (u "version", PStr (u "1.0.0"));
       (u "description",
        PStr (u "Extract product details (title, price, image, description) from e-commerce URLs"));
       (u "endpoints",
        PDict
          [ (u "GET /extract",
             PDict
               [ (u "description",
                  PStr (u "Extract product information from a URL"));
                 (u "parameters",
                  PDict
                    [ (u "url",
                       PDict
                         [ (u "type", PStr (u "string"));
                           (u "required", PBool true);
                           (u "description",
                            PStr (u "Product URL to extract information from"));
                           (u "example",
                            PStr (u "https://www.target.com/p/product-name/-/A-12345678")) ]) ]);
                 (u "response",
                  PDict
                    [ (u "success", PStr (u "boolean"));
                      (u "data",
                       PDict
                         [ (u "title", PStr (u "string"));
                           (u "price", PStr (u "string"));
                           (u "image", PStr (u "string (URL)"));
                           (u "description", PStr (u "string"));
                           (u "url", PStr (u "string")) ]) ]) ]);
            (u "GET /health",
             PDict
               [ (u "description",
                  PStr (u "Check API health status")) ]) ]);
       (u "example_usage",
        PDict
          [ (u "request",
             PStr (u "GET /extract?url=https://www.target.com/p/product/-/A-12345678"));
            (u "response",
             PDict
               [ (u "success", PBool true);
                 (u "data",
                  PDict
                    [ (u "title", PStr (u "Product Name"));
                      (u "price", PStr (u "$19.99"));
                      (u "image",
                       PStr (u "https://example.com/image.jpg"));
                      (u "description",
                       PStr (u "Product description..."));
                      (u "url",
                       PStr (u "https://www.target.com/p/product/-/A-12345678")) ]) ]) ]) ],
   200%Z).

End Service.

(** ** Reading a JSON body *)

(** [body[k]] when [body] is a dictionary with the key [k]. *)
Definition field (k : string) (body : pyval) : option pyval :=
  match body with
  | PDict d => lookup (u k) d
  | _ => None
  end.

(** The value reached from [body] by a path of keys. *)
Fixpoint at_path (path : list str) (body : pyval) : option pyval :=
  match path, body with
  | [], _ => Some body
  | k :: rest, PDict d =>
      match lookup k d with
      | Some v => at_path rest v
      | None => None
      end
  | _ :: _, _ => None
  end.

(** The keys of a dictionary, in the order of the source. *)
Definition keys (v : option pyval) : list str :=
  match v with
  | Some (PDict d) => map fst d
  | _ => []
  end.

(** ** JSON-LD values *)

(** The value of a block has offers with a price [v]: the value, or its
    first element when it is a list, is a dictionary whose offers are a
    dictionary with the key price, or a list whose first element is such
    a dictionary. *)
Definition offers_price (data v : pyval) : Prop :=
  exists top,
    (data = PDict top \/ exists more, data = PList (PDict top :: more)) /\
    ((exists o, lookup (u "offers") top = Some (PDict o) /\
                lookup (u "price") o = Some v) \/
     (exists f more,
        lookup (u "offers") top = Some (PList (PDict f :: more)) /\
        lookup (u "price") f = Some v)).

(** ** Decimal numerals *)

(** One or more decimal digits, then possibly a dot, then decimal digits:
    what the group of the raw-text patterns takes. *)
Definition decimal_numeral (g : str) : Prop :=
  exists d1 d2,
    d1 <> [] /\ forallb isdecimal d1 = true /\
    forallb isdecimal d2 = true /\
    (g = d1 ++ d2 \/ g = d1 ++ Patterns.dot :: d2).

(** A pattern, or a part of one, without group parentheses. *)
Definition group_free (p : Re.regex) : bool :=
  forallb (fun i => match i with Re.Ch _ _ => true | _ => false end) p.

(** A pattern that is a part without parentheses, then the group, then
    a part without parentheses. *)
Definition numbered (q : Re.regex) : Prop :=
  exists p1 tail,
    q = p1 ++ Patterns.number ++ tail /\
    group_free p1 = true /\ group_free tail = true.

(** ** More pages and collaborators for closed examples *)

Module Examples.

(** A JSON-LD document whose offers are a list, with the price as a
    string. *)
Definition offers_list_doc : str :=
  u "{" ++ dq :: u "offers" ++ dq :: u ":[{" ++ dq :: u "price" ++
  dq :: u ":" ++ dq :: u "7.00" ++ dq :: u "}]}".

Definition offers_list_val : pyval :=
  PDict [(u "offers", PList [PDict [(u "price", PStr (u "7.00"))]])].

(** [json.loads] on the documents of the examples. *)
Definition json_loads (s : str) : result pyval :=
  if str_eqb s offers_list_doc then Ret offers_list_val
  else Fixture.json_loads s.

(** A page that holds every source of the documented example record. *)
Definition documented_url : str :=
  u "https://www.target.com/p/product/-/A-12345678".

Definition documented_page : Soup :=
  [ Fixture.void "meta" [(u "property", u "og:title");
                         (u "content", u "Product Name")];
    Fixture.void "meta" [(u "property", u "og:image");
                         (u "content", u "https://example.com/image.jpg")];
    Fixture.void "meta" [(u "property", u "product:price:amount");
                         (u "content", u "19.99")];
    Fixture.void "meta" [(u "property", u "og:description");
                         (u "content", u "Product description...")] ].

(** [<title>  </title>]: a title of white space only. *)
Definition blank_text_title_page : Soup :=
  [ Fixture.tag "title" [] (u "  ") (Some (u "  ")) ].

(** A page with a price and a description and neither title nor image. *)
Definition price_only_page : Soup :=
  [ Fixture.void "meta" [(u "property", u "product:price:amount");
                         (u "content", u "19.99")];
    Fixture.void "meta" [(u "name", u "description");
                         (u "content", u "A thing")] ].

(** Two JSON-LD documents whose offers are a mapping, with the prices
    1 and 2 as strings. *)
Definition offer_doc_of (price : string) : str :=
  u "{" ++ dq :: u "offers" ++ dq :: u ":{" ++ dq :: u "price" ++
  dq :: u ":" ++ dq :: u price ++ dq :: u "}}".

Definition offer_val_of (price : string) : pyval :=
  PDict [(u "offers", PDict [(u "price", PStr (u price))])].

(** [json.loads] on these two documents. *)
Definition json_loads_offers (s : str) : result pyval :=
  if str_eqb s (offer_doc_of "1") then Ret (offer_val_of "1")
  else if str_eqb s (offer_doc_of "2") then Ret (offer_val_of "2")
  else Raise JSONDecodeError.

(** A page with both documents, each in a JSON-LD script block. *)
Definition two_offers_page : Soup :=
  [ Fixture.ld_script (offer_doc_of "1");
    Fixture.ld_script (offer_doc_of "2") ].

Definition two_offers_raw : str :=
  Fixture.ld_open ++ offer_doc_of "1" ++ u "</script>" ++
  Fixture.ld_open ++ offer_doc_of "2" ++ u "</script>".

End Examples.

(** * Properties *)

(** ** Helpers on tags *)

Lemma found_with_intro (e : Tag) (k : string) (c : str) :
  get e (u k) = Some c -> c <> [] ->
  found_with (Some e) k = true /\ item_of (Some e) k = c.
Proof.
  intros G N. simpl. unfold has_value, item. rewrite G.
  destruct c; [congruence|]. split; reflexivity.
Qed.

(** The first source of a resolver has a content: the resolver returns
    it. *)
Ltac content_wins t c Hfound Hget Hne :=
  rewrite Hfound;
  destruct (found_with_intro t "content" c Hget Hne) as [-> ->];
  reflexivity.

(** ** Title *)

(** C2 (amended): the title resolver short-circuits on the content of the
    first og:title meta element only when that content is not empty, and
    then returns it verbatim whatever the title and h1 elements hold;
    otherwise a title element, when there is one, gives its trimmed text
    even when that text is empty, and the first h1 element is read only
    when the tree has no title element. *)
Theorem title_short_circuit (soup : Soup) :
  let og := find (meta_property "og:title") soup in
  (forall t c, og = Some t -> get t (u "content") = Some c -> c <> [] ->
     extract_title soup = Some c) /\
  (found_with og "content" = false ->
     forall t, find (named "title") soup = Some t ->
       extract_title soup = Some (strip (get_text t))) /\
  (found_with og "content" = false -> find (named "title") soup = None ->
     forall h, find (named "h1") soup = Some h ->
       extract_title soup = Some (strip (get_text h))) /\
  (found_with og "content" = false -> find (named "title") soup = None ->
     find (named "h1") soup = None -> extract_title soup = None).
Proof.
  intros og. unfold extract_title. fold og. repeat split.
  - intros t c Hog G N. content_wins t c Hog G N.
  - intros -> t ->. reflexivity.
  - intros -> -> h ->. reflexivity.
  - intros -> -> ->. reflexivity.
Qed.

(** C2 at a page with all three title sources: the og:title content is
    the title. *)
Lemma title_short_circuit_witness :
  extract_title Fixture.og_title_page = Some (u "Gadget").
Proof.
  refine (proj1 (title_short_circuit Fixture.og_title_page)
            _ (u "Gadget") eq_refl eq_refl _).
  intros X. discriminate X.
Defined.

(** C2, as stated, fails twice.  An og:title element that is present with
    an empty content does not give the title: the title element does.
    And a title element with empty text wins over an h1 element with
    text. *)
Lemma title_short_circuit_counterexample :
  (exists og, find (meta_property "og:title") Fixture.empty_og_title_page
              = Some og /\
              get og (u "content") = Some [] /\
              extract_title Fixture.empty_og_title_page
              = Some (u "Widget")) /\
  (extract_title Fixture.empty_title_page = Some [] /\
   exists h, find (named "h1") Fixture.empty_title_page = Some h /\
             strip (get_text h) = u "Widget").
Proof.
  split.
  - eexists. repeat split.
  - split; [reflexivity|]. eexists. split; reflexivity.
Qed.

(** ** Description *)

Lemma firstn_bound {A} (n : nat) (l : list A) : length (firstn n l) <= n.
Proof. rewrite length_firstn. lia. Qed.

(** C7: a description taken from the content of the og:description meta
    element, or else of the description meta element, is that content
    untruncated, so that descriptions of every length occur; a description
    taken from the text of the itemprop=description element is that text
    trimmed and cut to its first 500 characters, so its length is at most
    500. *)
Theorem description_length (soup : Soup) :
  let og := find (meta_property "og:description") soup in
  let md := find (meta_name "description") soup in
  (forall t c, og = Some t -> get t (u "content") = Some c -> c <> [] ->
     extract_description soup = Some c) /\
  (found_with og "content" = false ->
     forall t c, md = Some t -> get t (u "content") = Some c -> c <> [] ->
       extract_description soup = Some c) /\
  (found_with og "content" = false -> found_with md "content" = false ->
     forall t, find (attr_is "itemprop" "description") soup = Some t ->
       exists d, extract_description soup = Some d /\
                 d = firstn 500 (strip (get_text t)) /\
                 length d <= 500) /\
  (forall n, exists c, length c = S n /\
     extract_description (Fixture.og_description_page c) = Some c).
Proof.
  intros og md. unfold extract_description. fold og. fold md.
  split; [|split; [|split]].
  - intros t c Hog G N. content_wins t c Hog G N.
  - intros -> t c Hmd G N. content_wins t c Hmd G N.
  - intros -> -> t Hs.
    change (fun t0 : Tag => attr_is "itemprop" "description" t0)
      with (attr_is "itemprop" "description"). rewrite Hs.
    eexists. split; [reflexivity|]. split; [reflexivity|].
    apply firstn_bound.
  - intros n. exists (repeat 120%N (S n)). split.
    + apply repeat_length.
    + reflexivity.
Qed.

(** C7 at a page whose itemprop description has 600 letters: the
    description is the first 500 of them. *)
Lemma description_length_witness :
  extract_description Fixture.long_description_page
  = Some (repeat 120%N 500).
Proof.
  destruct (proj1 (proj2 (proj2
              (description_length Fixture.long_description_page)))
              eq_refl eq_refl _ eq_refl) as (d & -> & -> & _).
  reflexivity.
Defined.

(** ** Image *)

Section ImageFacts.
Variable urljoin : str -> str -> result str.

(** C3 (amended): only the third image source is resolved.  When the
    image is the src of the first img element that passes the filter, the
    value assigned is [urljoin] of the original request URL and that src;
    when it is the content of the og:image meta element, or else of the
    twitter:image meta element, that content is assigned verbatim,
    relative or not. *)
Theorem image_resolution (url : str) (soup : Soup) :
  let og := find (meta_property "og:image") soup in
  let tw := find (meta_name "twitter:image") soup in
  (forall t c, og = Some t -> get t (u "content") = Some c -> c <> [] ->
     extract_image urljoin url soup = Ret (Some c)) /\
  (found_with og "content" = false ->
     forall t c, tw = Some t -> get t (u "content") = Some c -> c <> [] ->
       extract_image urljoin url soup = Ret (Some c)) /\
  (found_with og "content" = false -> found_with tw "content" = false ->
     forall img rest src absolute,
       filter is_large (find_all (named "img") soup) = img :: rest ->
       get img (u "src") = Some src ->
       urljoin url src = Ret absolute ->
       extract_image urljoin url soup = Ret (Some absolute)).
Proof.
  intros og tw. unfold extract_image. fold og. fold tw.
  split; [|split].
  - intros t c Hog G N. content_wins t c Hog G N.
  - intros -> t c Htw G N. content_wins t c Htw G N.
  - intros -> -> img rest src absolute -> G J.
    unfold item. rewrite G, J. reflexivity.
Qed.

Lemma filter_first {A} (f : A -> bool) before x after :
  Forall (fun y => f y = false) before -> f x = true ->
  filter f (before ++ x :: after) = x :: filter f after.
Proof.
  intros H X. induction H as [|y before Hy _ IH]; simpl.
  - rewrite X. reflexivity.
  - rewrite Hy. exact IH.
Qed.

Lemma filter_none {A} (f : A -> bool) l :
  Forall (fun y => f y = false) l -> filter f l = [].
Proof.
  induction 1 as [|y l Hy _ IH]; simpl; [reflexivity|].
  rewrite Hy. exact IH.
Qed.

(** X4: when neither meta element gives an image, the image source is
    the first img element, in document order, that passes the filter:
    its src exists, is not empty, and contains none of icon, logo and
    sprite.  The img elements before it are passed over, the image is
    [urljoin] of the request URL and the src of that element, and an
    exception of [urljoin] is the exception of the resolver.  The image
    stays absent when no img element passes. *)
Theorem image_filter (url : str) (soup : Soup) :
  found_with (find (meta_property "og:image") soup) "content" = false ->
  found_with (find (meta_name "twitter:image") soup) "content" = false ->
  (forall img,
     is_large img = true <->
     exists src, get img (u "src") = Some src /\ src <> [] /\
                 contains (u "icon") src = false /\
                 contains (u "logo") src = false /\
                 contains (u "sprite") src = false) /\
  (forall before img after src,
     find_all (named "img") soup = before ++ img :: after ->
     Forall (fun i => is_large i = false) before ->
     is_large img = true ->
     get img (u "src") = Some src ->
     (forall absolute, urljoin url src = Ret absolute ->
        extract_image urljoin url soup = Ret (Some absolute)) /\
     (forall e, urljoin url src = Raise e ->
        extract_image urljoin url soup = Raise e)) /\
  (Forall (fun i => is_large i = false) (find_all (named "img") soup) ->
   extract_image urljoin url soup = Ret None).
Proof.
  intros O T. split; [|split].
  - intros img. unfold is_large, has_value, item.
    destruct (get img (u "src")) as [src|].
    + cbn [existsb]. rewrite andb_true_iff, negb_true_iff, !orb_false_iff.
      split.
      * intros (N & A & B & C & _). exists src.
        destruct src; [discriminate N|].
        split; [reflexivity|]. split; [intros X; discriminate X|]. auto.
      * intros (x & E & N & A & B & C). injection E as <-.
        destruct src; [congruence|]. auto.
    + split; [discriminate|]. intros (x & E & _). discriminate E.
  - intros before img after src E F L G.
    unfold extract_image. rewrite O, T, E.
    rewrite (filter_first is_large before img after F L).
    unfold item. rewrite G.
    split; [intros absolute -> | intros e ->]; reflexivity.
  - intros F. unfold extract_image. rewrite O, T.
    rewrite (filter_none is_large _ F). reflexivity.
Qed.

End ImageFacts.

(** The specification's example of C3, on the img elements of a page:
    the first img is filtered out as a logo, the src of the second is
    resolved against the request URL. *)
Lemma image_resolution_witness :
  extract_image Fixture.urljoin Fixture.base_url Fixture.img_page
  = Ret (Some (u "https://shop.example/img/a.jpg")).
Proof.
  refine (proj2 (proj2 (image_resolution Fixture.urljoin Fixture.base_url
                          Fixture.img_page))
            eq_refl eq_refl _ _ (u "/img/a.jpg") _ eq_refl eq_refl eq_refl).
Defined.

(** C3, as stated, fails for the og:image source: a relative content is
    assigned as it is, whatever [urljoin] would make of it, and the value
    assigned is not an absolute URL. *)
Lemma image_resolution_counterexample :
  (forall urljoin,
     extract_image urljoin Fixture.base_url Fixture.og_image_page
     = Ret (Some (u "/img/a.jpg"))) /\
  is_absolute (u "/img/a.jpg") = false /\
  is_absolute (u "https://shop.example/img/a.jpg") = true.
Proof. repeat split. Qed.

(** X4 at a page with two img elements: the first is passed over as a
    logo, the second is the source. *)
Lemma image_filter_witness :
  extract_image Fixture.urljoin Fixture.base_url Fixture.img_page
  = Ret (Some (u "https://shop.example/img/a.jpg")).
Proof.
  refine (proj1 (proj1 (proj2 (image_filter Fixture.urljoin
                                 Fixture.base_url Fixture.img_page
                                 eq_refl eq_refl))
                   [Fixture.void "img" [(u "src", u "/logo.png")]]
                   (Fixture.void "img" [(u "src", u "/img/a.jpg")])
                   [] (u "/img/a.jpg") eq_refl _ eq_refl eq_refl)
            _ eq_refl).
  constructor; [reflexivity | constructor].
Defined.

(** ** The matcher *)

Module ReFacts.
Import Re.

Lemma greedy_bounded cls k : bounded k -> bounded (greedy cls k).
Proof.
  intros Hk s. induction s as [|c s IH]; intros n r; simpl.
  - apply Hk.
  - destruct (cls c).
    + destruct (greedy cls k s (S n)) as [r'|] eqn:G.
      * intros E. injection E as <-. apply IH in G. lia.
      * intros E. apply Hk in E. simpl in E. lia.
    + intros E. apply Hk in E. simpl in E. lia.
Qed.

Lemma rx_bounded p : forall gs ge, bounded (rx p gs ge).
Proof.
  induction p as [|i p IH]; intros gs ge s n r; simpl.
  - intros E. injection E as <-. simpl. lia.
  - destruct i as [cls q| |].
    + destruct q.
      * destruct s as [|c s]; [discriminate|].
        destruct (cls c); [|discriminate].
        intros E. apply IH in E. simpl. lia.
      * destruct s as [|c s]; [apply IH|].
        destruct (cls c); [|apply IH].
        destruct (rx p gs ge s (S n)) as [r'|] eqn:G.
        -- intros E. injection E as <-. apply IH in G. simpl. lia.
        -- apply IH.
      * apply greedy_bounded. apply IH.
      * destruct s as [|c s]; [discriminate|].
        destruct (cls c); [|discriminate].
        intros E. apply greedy_bounded in E; [simpl; lia | apply IH].
    + apply IH.
    + apply IH.
Qed.

(** A successful [*] took a run of the class and then the rest of the
    pattern matched. *)
Lemma greedy_inv cls k s n r :
  greedy cls k s n = Some r ->
  exists run rest, s = run ++ rest /\ forallb cls run = true /\
                   k rest (n + length run) = Some r.
Proof.
  revert n. induction s as [|c s IH]; intros n; simpl.
  - intros E. exists [], []. simpl. rewrite Nat.add_0_r. auto.
  - destruct (cls c) eqn:C.
    + destruct (greedy cls k s (S n)) as [r'|] eqn:G.
      * intros E. injection E as <-.
        destruct (IH _ G) as (run & rest & -> & F & K).
        exists (c :: run), rest. simpl. rewrite C, F.
        replace (n + S (length run)) with (S n + length run) by lia. auto.
      * intros E. exists [], (c :: s). simpl. rewrite Nat.add_0_r. auto.
    + intros E. exists [], (c :: s). simpl. rewrite Nat.add_0_r. auto.
Qed.

(** [search] returns the match at the first position that has one. *)
Lemma search_skip p pre rest :
  (forall j, j < length pre -> match_here p (skipn j (pre ++ rest)) = None) ->
  search p (pre ++ rest) = search p rest.
Proof.
  induction pre as [|c pre IH]; intros H; [reflexivity|].
  assert (H0 : match_here p (c :: pre ++ rest) = None)
    by (apply (H 0); simpl; lia).
  change ((c :: pre) ++ rest) with (c :: (pre ++ rest)).
  cbn [search]. rewrite H0.
  apply IH. intros j Hj. apply (H (S j)). simpl. lia.
Qed.

Lemma search_here p s m :
  match_here p s = Some m -> search p s = Some (mk_match s m).
Proof. intros E. destruct s; cbn [search]; rewrite E; reflexivity. Qed.

Lemma search_inv p s mo :
  search p s = Some mo ->
  exists pre rest m, s = pre ++ rest /\ match_here p rest = Some m /\
                     mo = mk_match rest m.
Proof.
  induction s as [|c s IH]; cbn [search].
  - destruct (match_here p []) as [m|] eqn:E; [|discriminate].
    intros X. injection X as <-. exists [], [], m. auto.
  - destruct (match_here p (c :: s)) as [m|] eqn:E.
    + intros X. injection X as <-. exists [], (c :: s), m. auto.
    + intros X. destruct (IH X) as (pre & rest & m & -> & M & ->).
      exists (c :: pre), rest, m. auto.
Qed.

End ReFacts.

(** ** Price: the chain of methods *)

Lemma method2_keeps soup p :
  truthy (Some p) = true -> price_method2 soup (Some p) = Some p.
Proof. unfold price_method2. intros ->. reflexivity. Qed.

Lemma method3_keeps html p :
  truthy (Some p) = true -> price_method3 html (Some p) = Some p.
Proof. unfold price_method3. intros ->. reflexivity. Qed.

Lemma method4_keeps soup p :
  truthy (Some p) = true -> price_method4 soup (Some p) = Some p.
Proof. unfold price_method4. intros ->. reflexivity. Qed.

Lemma method2_dollar soup prior p :
  (forall q, prior = Some q -> exists r, q = prefix_dollar r) ->
  price_method2 soup prior = Some p -> exists r, p = prefix_dollar r.
Proof.
  intros H. unfold price_method2.
  destruct (negb (truthy prior)); [|apply H].
  destruct (found_with _ _); [|apply H].
  intros E. injection E as <-. eexists. reflexivity.
Qed.

Lemma pattern_scan_dollar ps html p :
  pattern_scan ps html = Some p -> exists r, p = prefix_dollar r.
Proof.
  induction ps as [|q ps IH]; simpl; [discriminate|].
  destruct (Re.search q html); [|exact IH].
  intros E. injection E as <-. eexists. reflexivity.
Qed.

Lemma method3_dollar html prior p :
  (forall q, prior = Some q -> exists r, q = prefix_dollar r) ->
  price_method3 html prior = Some p -> exists r, p = prefix_dollar r.
Proof.
  intros H. unfold price_method3.
  destruct (negb (truthy prior)); [|apply H].
  destruct (pattern_scan _ _) eqn:S; [|apply H].
  intros E. injection E as <-. eapply pattern_scan_dollar. exact S.
Qed.

Section PriceFacts.
Variable json_loads : str -> result pyval.
Variable py_format : pyval -> str.

Local Abbreviation jsonld_price := (jsonld_price json_loads py_format).
Local Abbreviation jsonld_scan := (jsonld_scan json_loads py_format).
Local Abbreviation price_method1 := (price_method1 json_loads py_format).
Local Abbreviation extract_price := (extract_price json_loads py_format).
Local Abbreviation fails_to_parse := (fails_to_parse json_loads).
Local Abbreviation passed_over := (passed_over json_loads py_format).

Lemma fails_to_parse_raises b :
  fails_to_parse b -> exists e, jsonld_price b = Raise e.
Proof.
  unfold fails_to_parse, Engine.jsonld_price.
  destruct (string_ b) as [s|].
  - intros [e ->]. exists e. reflexivity.
  - intros _. exists TypeError. reflexivity.
Qed.

Lemma jsonld_scan_passed before rest :
  Forall passed_over before ->
  jsonld_scan (before ++ rest) = jsonld_scan rest.
Proof.
  induction 1 as [|b before Hb _ IH]; [reflexivity|].
  simpl. destruct Hb as [F|N].
  - destruct (fails_to_parse_raises b F) as [e ->]. exact IH.
  - destruct (jsonld_price b) as [[q|]|e]; [|exact IH|exact IH].
    exfalso. apply (N q). reflexivity.
Qed.

Lemma jsonld_scan_dollar scripts p :
  jsonld_scan scripts = Some p -> exists r, p = prefix_dollar r.
Proof.
  induction scripts as [|b scripts IH]; simpl; [discriminate|].
  destruct (jsonld_price b) as [[q|]|e] eqn:J; [|exact IH|exact IH].
  intros E. injection E as <-. revert J.
  unfold Engine.jsonld_price.
  destruct (match string_ b with Some s => json_loads s | None => _ end)
    as [data|]; cbn [bind]; [|discriminate].
  destruct (match data with PList l => py_first l | _ => Ret data end)
    as [data'|]; cbn [bind]; [|discriminate].
  destruct (py_in (u "offers") data') as [[|]|]; cbn [bind];
    try discriminate.
  destruct (py_getitem data' (u "offers")) as [offers|]; cbn [bind];
    [|discriminate].
  destruct offers as [| | | | |l|o]; try discriminate.
  - destruct l as [|first l]; [discriminate|].
    destruct (py_in (u "price") first) as [[|]|]; cbn [bind];
      try discriminate.
    destruct (py_getitem first (u "price")); cbn [bind]; [|discriminate].
    intros E. injection E as <-. eexists. reflexivity.
  - destruct (lookup (u "price") o); [|discriminate].
    intros E. injection E as <-. eexists. reflexivity.
Qed.

(** A price assigned by method 1 is the price of the record. *)
Lemma method1_wins soup html p :
  price_method1 soup = Some (prefix_dollar p) ->
  extract_price soup html = Some (prefix_dollar p).
Proof.
  intros E. unfold Engine.extract_price. rewrite E.
  rewrite method2_keeps, method3_keeps, method4_keeps; reflexivity.
Qed.

End PriceFacts.

Section JsonLdFacts.
Variable json_loads : str -> result pyval.
Variable py_format : pyval -> str.

(** C1 (amended): method 1 visits the JSON-LD script blocks in document
    order and stops at the first block that assigns a price.  Blocks
    that fail to parse, or that assign no price, are passed over and the
    blocks after them are still evaluated; at the first block, after
    blocks passed over only, whose content parses as JSON and, after
    taking the first element when the value is a sequence, has an offers
    key that is a mapping containing price, the price of the record is
    the dollar sign followed by the text of that price. *)
Theorem jsonld_offer_price (soup : Soup) (html_text : str)
  (before after : list Tag) (block : Tag) (doc : str) (data : pyval)
  (top offers : list (str * pyval)) (p : pyval) :
  find_all ld_json_script soup = before ++ block :: after ->
  Forall (passed_over json_loads py_format) before ->
  string_ block = Some doc ->
  json_loads doc = Ret data ->
  (data = PDict top \/ exists more, data = PList (PDict top :: more)) ->
  lookup (u "offers") top = Some (PDict offers) ->
  lookup (u "price") offers = Some p ->
  extract_price json_loads py_format soup html_text
  = Some (prefix_dollar (py_format p)).
Proof.
  intros Hall Hbefore Hs Hj Hd Ho Hp.
  apply method1_wins. unfold price_method1. rewrite Hall.
  rewrite (jsonld_scan_passed _ _ _ _ Hbefore).
  cbn [jsonld_scan]. unfold jsonld_price. rewrite Hs, Hj.
  assert (K : is_key (u "offers") top = true)
    by (unfold is_key; rewrite Ho; reflexivity).
  destruct Hd as [-> | [more ->]]; cbn [bind py_first py_in py_getitem];
    rewrite K, Ho; cbn [bind]; rewrite Hp; reflexivity.
Qed.

End JsonLdFacts.

(** The specification's example of C1: the block after one that is not
    JSON yields the price 12.5 with the dollar sign. *)
Lemma jsonld_offer_price_witness :
  extract_price Fixture.json_loads Fixture.py_format
    Fixture.jsonld_page Fixture.jsonld_raw
  = Some (u "$12.5").
Proof.
  refine (jsonld_offer_price Fixture.json_loads Fixture.py_format
            Fixture.jsonld_page Fixture.jsonld_raw
            [Fixture.ld_script (u "{not json")] []
            (Fixture.ld_script Fixture.offer_doc) Fixture.offer_doc
            Fixture.offer_val
            [(u "offers", PDict [(u "price", PFloat 12.5%float)])]
            [(u "price", PFloat 12.5%float)] (PFloat 12.5%float)
            eq_refl _ eq_refl eq_refl (or_introl eq_refl) eq_refl eq_refl).
  constructor; [|constructor].
  left. exists JSONDecodeError. reflexivity.
Defined.

(** C1, as stated, fails for a block that comes after one that assigned
    a price.  Both blocks of this page parse as JSON and have offers as a
    mapping containing price; the second one, on its own, gives $2; the
    price of the page is $1, the price of the first. *)
Lemma jsonld_offer_price_counterexample :
  find_all ld_json_script Examples.two_offers_page
  = [ Fixture.ld_script (Examples.offer_doc_of "1");
      Fixture.ld_script (Examples.offer_doc_of "2") ] /\
  string_ (Fixture.ld_script (Examples.offer_doc_of "2"))
  = Some (Examples.offer_doc_of "2") /\
  Examples.json_loads_offers (Examples.offer_doc_of "2")
  = Ret (PDict [(u "offers", PDict [(u "price", PStr (u "2"))])]) /\
  jsonld_price Examples.json_loads_offers Fixture.py_format
    (Fixture.ld_script (Examples.offer_doc_of "2"))
  = Ret (Some (u "$2")) /\
  extract_price Examples.json_loads_offers Fixture.py_format
    [Fixture.ld_script (Examples.offer_doc_of "2")]
    Examples.two_offers_raw
  = Some (u "$2") /\
  extract_price Examples.json_loads_offers Fixture.py_format
    Examples.two_offers_page Examples.two_offers_raw
  = Some (u "$1").
Proof. repeat (split; [reflexivity|]). reflexivity. Qed.

(** ** Price, method 3 *)

Lemma pattern_scan_first ps html before pattern after m :
  ps = before ++ pattern :: after ->
  Forall (fun q => Re.search q html = None) before ->
  Re.search pattern html = Some m ->
  pattern_scan ps html = Some (prefix_dollar (Re.group1 m)).
Proof.
  intros -> H M. induction H as [|q before Hq _ IH]; simpl.
  - rewrite M. reflexivity.
  - rewrite Hq. exact IH.
Qed.

Lemma isdecimal_9 : isdecimal 57%N = true.
Proof. reflexivity. Qed.

Lemma isdecimal_dot : isdecimal 46%N = false.
Proof. reflexivity. Qed.

Lemma isspace_blank : isspace 32%N = true.
Proof. reflexivity. Qed.

Lemma isspace_9 : isspace 57%N = false.
Proof. reflexivity. Qed.

(** The second pattern at an occurrence of the example text that no
    digit follows: the group is 9.99. *)
Lemma currentPrice_here post :
  starts_with_decimal post = false ->
  exists m,
    Re.match_here Patterns.currentPrice (current_price_999 ++ post) = Some m /\
    Re.group1 (Re.mk_match (current_price_999 ++ post) m) = u "9.99".
Proof.
  intros H.
  unfold Re.match_here, Patterns.currentPrice, Patterns.number, Patterns.ws,
    current_price_999.
  cbn -[isdecimal isspace].
  rewrite isspace_blank, isspace_9, isdecimal_9, isdecimal_dot.
  destruct post as [|c post]; cbn -[isdecimal isspace] in *.
  - eexists. split; reflexivity.
  - rewrite H. eexists. split; reflexivity.
Qed.

Section RawTextFacts.
Variable json_loads : str -> result pyval.
Variable py_format : pyval -> str.

Local Abbreviation price_method1 := (price_method1 json_loads py_format).
Local Abbreviation extract_price := (extract_price json_loads py_format).

Lemma method3_wins soup html p :
  truthy (price_method2 soup (price_method1 soup)) = false ->
  pattern_scan Patterns.price_patterns html = Some (prefix_dollar p) ->
  extract_price soup html = Some (prefix_dollar p).
Proof.
  intros T S. unfold Engine.extract_price, price_method3.
  rewrite T, S. cbn [negb]. apply method4_keeps. reflexivity.
Qed.

(** C6 (amended): when methods 1 and 2 yield nothing, method 3 tries its
    four patterns in the stated order against the raw response text and
    the price is the dollar sign followed by the first group of the
    first pattern that matches, at its leftmost match.  So when the first
    pattern has no match and the leftmost match of the second pattern is
    at an occurrence of 'currentPrice': 9.99 that no further digit
    follows, the price is $9.99. *)
Theorem raw_text_price (soup : Soup) (html_text : str) :
  truthy (price_method2 soup (price_method1 soup)) = false ->
  (forall before pattern after m,
     Patterns.price_patterns = before ++ pattern :: after ->
     Forall (fun q => Re.search q html_text = None) before ->
     Re.search pattern html_text = Some m ->
     extract_price soup html_text = Some (prefix_dollar (Re.group1 m))) /\
  (forall pre post,
     html_text = pre ++ current_price_999 ++ post ->
     Re.search Patterns.price_current html_text = None ->
     (forall j, j < length pre ->
        Re.match_here Patterns.currentPrice (skipn j html_text) = None) ->
     starts_with_decimal post = false ->
     extract_price soup html_text = Some (u "$9.99")).
Proof.
  intros T. split.
  - intros before pattern after m E H M.
    apply method3_wins; [exact T|].
    eapply pattern_scan_first; eassumption.
  - intros pre post -> N1 N2 D.
    destruct (currentPrice_here post D) as (m & M & G).
    change (u "$9.99") with (prefix_dollar (u "9.99")). rewrite <- G.
    apply method3_wins; [exact T|].
    apply (pattern_scan_first _ _ [Patterns.price_current]
             Patterns.currentPrice
             [Patterns.price_number; Patterns.price_loose]).
    + reflexivity.
    + constructor; [exact N1 | constructor].
    + rewrite (ReFacts.search_skip _ _ _ N2).
      apply ReFacts.search_here. exact M.
Qed.

End RawTextFacts.

(** The specification's example of C6: a body without tags that holds
    'currentPrice': 9.99 once. *)
Lemma raw_text_price_witness :
  extract_price Fixture.json_loads Fixture.py_format []
    (Fixture.current_price_raw "9.99")
  = Some (u "$9.99").
Proof.
  refine (proj2 (raw_text_price Fixture.json_loads Fixture.py_format []
                   (Fixture.current_price_raw "9.99") eq_refl)
            (u "{") (u "}") eq_refl eq_refl _ eq_refl).
  intros [|j] Hj; [reflexivity|].
  exfalso. simpl in Hj. lia.
Defined.

(** C6, as stated, fails twice.  Each text below contains
    'currentPrice': 9.99, the first pattern has no match on it, and
    methods 1 and 2 yield nothing.  In the first the leftmost match of
    the second pattern is at an earlier occurrence of the key, and the
    price is $12; in the second a further digit follows, and the price
    is $9.995. *)
Lemma raw_text_price_counterexample :
  (contains current_price_999 Fixture.current_price_twice_raw = true /\
   Re.search Patterns.price_current Fixture.current_price_twice_raw
   = None /\
   forall json_loads py_format,
     price_method2 [] (price_method1 json_loads py_format []) = None /\
     extract_price json_loads py_format [] Fixture.current_price_twice_raw
     = Some (u "$12")) /\
  (contains current_price_999 (Fixture.current_price_raw "9.995") = true /\
   Re.search Patterns.price_current (Fixture.current_price_raw "9.995")
   = None /\
   forall json_loads py_format,
     price_method2 [] (price_method1 json_loads py_format []) = None /\
     extract_price json_loads py_format []
       (Fixture.current_price_raw "9.995")
     = Some (u "$9.995")).
Proof.
  split; (split; [reflexivity|]; split; [reflexivity|]);
    intros json_loads py_format; split; reflexivity.
Qed.

(** ** White space, digits and currency symbols *)

Lemma in_ranges_spec c l :
  in_ranges c l = true <->
  exists r, In r l /\ (fst r <= c /\ c <= snd r)%N.
Proof.
  unfold in_ranges. rewrite existsb_exists. split.
  - intros (r & I & H). apply andb_true_iff in H as [A B].
    apply N.leb_le in A, B. eauto.
  - intros (r & I & A & B). exists r. split; [exact I|].
    apply andb_true_iff. split; apply N.leb_le; assumption.
Qed.

Lemma apart_sound l1 l2 c :
  apart l1 l2 = true -> in_ranges c l1 = true -> in_ranges c l2 = false.
Proof.
  intros A H1. destruct (in_ranges c l2) eqn:H2; [|reflexivity].
  apply in_ranges_spec in H1 as (r1 & I1 & L1 & U1).
  apply in_ranges_spec in H2 as (r2 & I2 & L2 & U2).
  unfold apart in A. rewrite forallb_forall in A.
  specialize (A r1 I1). rewrite forallb_forall in A. specialize (A r2 I2).
  apply orb_true_iff in A as [A|A]; apply N.ltb_lt in A; lia.
Qed.

Lemma decimal_not_space c : isdecimal c = true -> isspace c = false.
Proof. apply apart_sound. vm_compute. reflexivity. Qed.

Lemma currency_cases c :
  Patterns.currency c = true ->
  c = Patterns.dollar \/ c = euro \/ c = pound.
Proof.
  unfold Patterns.currency, Re.one_of. cbn [existsb].
  rewrite !orb_true_iff, !N.eqb_eq.
  intros [H | [H | [H | H]]]; auto. discriminate H.
Qed.

Lemma currency_not_space c : Patterns.currency c = true -> isspace c = false.
Proof.
  intros H. destruct (currency_cases c H) as [-> | [-> | ->]]; reflexivity.
Qed.

Lemma currency_not_decimal c :
  Patterns.currency c = true -> isdecimal c = false.
Proof.
  intros H. destruct (currency_cases c H) as [-> | [-> | ->]]; reflexivity.
Qed.

Lemma lstrip_spaces run s :
  forallb isspace run = true -> lstrip (run ++ s) = lstrip s.
Proof.
  induction run as [|c run IH]; simpl; [reflexivity|].
  intros H. apply andb_true_iff in H as [-> H]. apply IH, H.
Qed.

Lemma lstrip_keeps c s : isspace c = false -> lstrip (c :: s) = c :: s.
Proof. simpl. intros ->. reflexivity. Qed.

Lemma lstrip_snoc l c :
  isspace c = false -> lstrip (l ++ [c]) = lstrip l ++ [c].
Proof.
  intros H. induction l as [|x l IH]; simpl.
  - rewrite H. reflexivity.
  - destruct (isspace x); [exact IH | reflexivity].
Qed.

Lemma rstrip_cons c s : isspace c = false -> rstrip (c :: s) = c :: rstrip s.
Proof.
  intros H. unfold rstrip. simpl. rewrite lstrip_snoc by exact H.
  rewrite rev_app_distr. reflexivity.
Qed.

(** Trimming a text that has a visible character after its leading white
    space leaves that character first. *)
Lemma strip_head run c s :
  forallb isspace run = true -> isspace c = false ->
  strip (run ++ c :: s) = c :: rstrip s.
Proof.
  intros R C. unfold strip.
  rewrite lstrip_spaces, lstrip_keeps by assumption.
  apply rstrip_cons, C.
Qed.

(** ** Price, method 4: the shape of a match *)

Lemma rx_star cls p gs ge s n :
  Re.rx (Re.Ch cls Re.Star :: p) gs ge s n
  = Re.greedy cls (Re.rx p gs ge) s n.
Proof. reflexivity. Qed.

Lemma rx_open p gs ge s n :
  Re.rx (Re.Open :: p) gs ge s n = Re.rx p n ge s n.
Proof. reflexivity. Qed.

Lemma rx_plus cls p gs ge s n :
  Re.rx (Re.Ch cls Re.Plus :: p) gs ge s n
  = match s with
    | c :: s' =>
        if cls c then Re.greedy cls (Re.rx p gs ge) s' (S n) else None
    | [] => None
    end.
Proof. reflexivity. Qed.

Lemma rx_opt cls p gs ge s n :
  Re.rx (Re.Ch cls Re.Opt :: p) gs ge s n
  = match s with
    | c :: s' =>
        if cls c then
          match Re.rx p gs ge s' (S n) with
          | Some r => Some r
          | None => Re.rx p gs ge s n
          end
        else Re.rx p gs ge s n
    | [] => Re.rx p gs ge s n
    end.
Proof. reflexivity. Qed.

Lemma after_symbol_shape gs ge t n m :
  Re.rx after_symbol gs ge t n = Some m ->
  exists run d t',
    t = run ++ d :: t' /\ forallb isspace run = true /\
    isdecimal d = true /\ n + length run + 1 <= Re.m_end m.
Proof.
  change after_symbol
    with (Re.Ch isspace Re.Star :: Re.Open :: Re.Ch isdecimal Re.Plus ::
          after_digits).
  rewrite rx_star.
  intros G. apply ReFacts.greedy_inv in G as (run & rest & -> & R & K).
  rewrite rx_open, rx_plus in K.
  destruct rest as [|d t']; [discriminate|].
  destruct (isdecimal d) eqn:D; [|discriminate].
  apply ReFacts.greedy_bounded in K; [|apply ReFacts.rx_bounded].
  exists run, d, t'. repeat split; try assumption. lia.
Qed.

Lemma firstn_past {A} (run : list A) d t k :
  length run + 1 <= k ->
  firstn k (run ++ d :: t) = run ++ d :: firstn (k - length run - 1) t.
Proof.
  intros H. rewrite firstn_app.
  rewrite firstn_all2 by lia. f_equal.
  destruct (k - length run) as [|j] eqn:E; [lia|].
  cbn [firstn]. f_equal. f_equal. lia.
Qed.

(** The whole match of the selector pattern, trimmed, starts with the
    currency symbol when the match took one, and with the first digit
    otherwise. *)
Lemma selector_match_head s m :
  Re.match_here Patterns.selector_price s = Some m ->
  exists c rest,
    strip (Re.group0 (Re.mk_match s m)) = c :: rest /\
    ((Patterns.currency c = true /\
      exists more, Re.group0 (Re.mk_match s m) = c :: more) \/
     (isdecimal c = true /\
      exists run more, forallb isspace run = true /\
                       Re.group0 (Re.mk_match s m) = run ++ c :: more)).
Proof.
  unfold Re.match_here. cbn [Re.mk_match Re.group0].
  change Patterns.selector_price
    with (Re.Ch Patterns.currency Re.Opt :: after_symbol).
  rewrite rx_opt.
  assert (plain : forall t,
    Re.rx after_symbol 0 0 t 0 = Some m ->
    exists c rest,
      strip (firstn (Re.m_end m) t) = c :: rest /\
      ((Patterns.currency c = true /\
        exists more, firstn (Re.m_end m) t = c :: more) \/
       (isdecimal c = true /\
        exists run more, forallb isspace run = true /\
                         firstn (Re.m_end m) t = run ++ c :: more))).
  { intros t G.
    apply after_symbol_shape in G as (run & d & t' & -> & R & D & B).
    rewrite firstn_past by lia.
    exists d. eexists. split.
    - apply strip_head; [exact R | apply decimal_not_space, D].
    - right. split; [exact D|]. exists run. eexists. split;
        [exact R | reflexivity]. }
  destruct s as [|c s]; [apply plain|].
  destruct (Patterns.currency c) eqn:C; [|apply plain].
  destruct (Re.rx after_symbol 0 0 s 1) as [r|] eqn:G; [|apply plain].
  intros E. injection E as <-.
  apply after_symbol_shape in G as (run & d & t' & -> & R & D & B).
  replace (Re.m_end r) with (S (Re.m_end r - 1)) by lia.
  cbn [firstn].
  exists c. eexists. split.
  - apply (strip_head [] c); [reflexivity | apply currency_not_space, C].
  - left. split; [exact C|]. eexists. reflexivity.
Qed.

Lemma selector_search_head txt mo :
  Re.search Patterns.selector_price txt = Some mo ->
  exists c rest,
    strip (Re.group0 mo) = c :: rest /\
    ((Patterns.currency c = true /\
      exists more, Re.group0 mo = c :: more) \/
     (isdecimal c = true /\
      exists run more, forallb isspace run = true /\
                       Re.group0 mo = run ++ c :: more)).
Proof.
  intros S. apply ReFacts.search_inv in S as (pre & rest & m & _ & M & ->).
  apply selector_match_head, M.
Qed.

(** ** Price, method 4: the scan *)

Lemma selector_price_of_spec cand p :
  selector_price_of cand = Some p <->
  exists e txt m,
    cand = Some e /\ price_text e = Some txt /\ txt <> [] /\
    Re.search Patterns.selector_price txt = Some m /\
    p = strip (Re.group0 m).
Proof.
  unfold selector_price_of. split.
  - destruct cand as [e|]; [|discriminate].
    destruct (price_text e) as [txt|] eqn:T; [|discriminate].
    destruct txt as [|a txt]; [discriminate|]. cbn [truthy nonempty].
    destruct (Re.search _ _) as [m|] eqn:S; [|discriminate].
    intros E. injection E as <-.
    exists e, (a :: txt), m.
    split; [reflexivity|]. split; [exact T|].
    split; [intro X; discriminate X|]. split; [exact S | reflexivity].
  - intros (e & txt & m & -> & -> & N & S & ->).
    destruct txt as [|a txt]; [congruence|]. cbn [truthy nonempty].
    rewrite S. reflexivity.
Qed.

Lemma selector_scan_first elems before cand after p :
  elems = before ++ cand :: after ->
  Forall (fun c => selector_price_of c = None) before ->
  selector_price_of cand = Some p ->
  selector_scan elems = Some p.
Proof.
  intros -> H P. induction H as [|c before Hc _ IH]; simpl.
  - rewrite P. reflexivity.
  - rewrite Hc. exact IH.
Qed.

Lemma selector_scan_none elems :
  Forall (fun c => selector_price_of c = None) elems ->
  selector_scan elems = None.
Proof.
  induction 1 as [|c elems Hc _ IH]; simpl; [reflexivity|].
  rewrite Hc. exact IH.
Qed.

Lemma selector_scan_inv elems p :
  selector_scan elems = Some p ->
  exists before cand after,
    elems = before ++ cand :: after /\
    Forall (fun c => selector_price_of c = None) before /\
    selector_price_of cand = Some p.
Proof.
  induction elems as [|c elems IH]; simpl; [discriminate|].
  destruct (selector_price_of c) as [q|] eqn:Q.
  - intros E. injection E as <-. exists [], c, elems. auto.
  - intros E. destruct (IH E) as (before & cand & after & -> & F & P).
    exists (c :: before), cand, after. auto.
Qed.

(** ** Price, method 4: trimming the text first changes nothing *)

Lemma text_price_search txt :
  text_price txt = trimmed_match (Re.search Patterns.selector_price txt).
Proof.
  unfold text_price, trimmed_match. destruct txt as [|a txt].
  - reflexivity.
  - cbn [nonempty]. destruct (Re.search _ _); reflexivity.
Qed.

Lemma greedy_shifted cls k k' :
  shifted k k' -> shifted (Re.greedy cls k) (Re.greedy cls k').
Proof.
  intros H s. induction s as [|c s IH]; intros n; cbn [Re.greedy].
  - apply H.
  - destruct (cls c); [|apply H].
    specialize (IH (S n)).
    destruct (Re.greedy cls k s (S (S n))), (Re.greedy cls k' s (S n));
      try contradiction; [exact IH | apply H].
Qed.

Lemma rx_shifted p :
  forall gs ge gs' ge', shifted (Re.rx p gs ge) (Re.rx p gs' ge').
Proof.
  induction p as [|i p IH]; intros gs ge gs' ge'.
  - intros s n. reflexivity.
  - destruct i as [cls q| |].
    + destruct q.
      * intros s n. cbn [Re.rx]. destruct s as [|c s]; [exact I|].
        destruct (cls c); [apply IH | exact I].
      * intros s n. rewrite !rx_opt. destruct s as [|c s]; [apply IH|].
        destruct (cls c); [|apply IH].
        pose proof (IH gs ge gs' ge' s (S n)) as H1.
        destruct (Re.rx p gs ge s (S (S n))), (Re.rx p gs' ge' s (S n));
          try contradiction; [exact H1 | apply IH].
      * intros s n. rewrite !rx_star. apply greedy_shifted, IH.
      * intros s n. rewrite !rx_plus. destruct s as [|c s]; [exact I|].
        destruct (cls c); [|exact I]. apply greedy_shifted, IH.
    + intros s n. rewrite !rx_open. apply IH.
    + intros s n. cbn [Re.rx]. apply IH.
Qed.

Lemma greedy_blind cls k c :
  cls c = false -> blind c k -> blind c (Re.greedy cls k).
Proof.
  intros C H s. induction s as [|x s IH]; intros n.
  - cbn [app Re.greedy]. rewrite C. apply (H []).
  - cbn [app Re.greedy]. rewrite IH. rewrite (H (x :: s)). reflexivity.
Qed.

Lemma rx_blind c p : rejects c p -> forall gs ge, blind c (Re.rx p gs ge).
Proof.
  induction p as [|i p IH]; intros R gs ge s n.
  - reflexivity.
  - destruct i as [cls q| |]; cbn [rejects] in R.
    + destruct R as [C R]. specialize (IH R). destruct q.
      * cbn [Re.rx]. destruct s as [|x s]; cbn [app].
        -- rewrite C. reflexivity.
        -- destruct (cls x); [apply IH | reflexivity].
      * rewrite !rx_opt. destruct s as [|x s]; cbn [app].
        -- rewrite C. apply (IH gs ge []).
        -- rewrite !(IH gs ge). rewrite (IH gs ge (x :: s)). reflexivity.
      * rewrite !rx_star. apply greedy_blind; [exact C | apply IH].
      * rewrite !rx_plus. destruct s as [|x s]; cbn [app].
        -- rewrite C. reflexivity.
        -- destruct (cls x); [|reflexivity].
           apply greedy_blind; [exact C | apply IH].
    + rewrite !rx_open. apply IH, R.
    + cbn [Re.rx]. apply IH, R.
Qed.

Lemma from_group_rejects c : isspace c = true -> rejects c from_group.
Proof.
  intros S.
  assert (D : isdecimal c = false).
  { destruct (isdecimal c) eqn:D; [|reflexivity].
    apply decimal_not_space in D. congruence. }
  assert (X : forall l, (forall x, In x l -> isspace x = false) ->
                        Re.one_of l c = false).
  { intros l H. unfold Re.one_of.
    destruct (existsb (N.eqb c) l) eqn:E; [|reflexivity].
    apply existsb_exists in E as (x & I & E). apply N.eqb_eq in E.
    subst x. rewrite (H c I) in S. discriminate S. }
  unfold from_group, after_symbol, Patterns.selector_price, Patterns.ws.
  cbn [tl rejects].
  split; [exact D|]. split.
  { apply X. intros x [<- | [<- | []]]; reflexivity. }
  split; [exact D|]. split.
  { destruct (N.eqb_spec Patterns.dot c) as [<- | _]; [|reflexivity].
    discriminate S. }
  split; [exact D | exact I].
Qed.

Lemma from_group_empty gs ge n : Re.rx from_group gs ge [] n = None.
Proof. reflexivity. Qed.

Lemma space_not_currency c : isspace c = true -> Patterns.currency c = false.
Proof.
  intros S. destruct (Patterns.currency c) eqn:C; [|reflexivity].
  apply currency_not_space in C. congruence.
Qed.

Lemma space_not_decimal c : isspace c = true -> isdecimal c = false.
Proof.
  intros S. destruct (isdecimal c) eqn:D; [|reflexivity].
  apply decimal_not_space in D. congruence.
Qed.

Lemma after_symbol_blind c :
  isspace c = true -> forall gs ge, blind c (Re.rx after_symbol gs ge).
Proof.
  intros S gs ge.
  pose proof (rx_blind c from_group (from_group_rejects c S) gs ge) as B.
  assert (G : blind c (Re.greedy isspace (Re.rx from_group gs ge))).
  { intros s. induction s as [|x s IH]; intros n; cbn [app Re.greedy].
    - rewrite S, from_group_empty. apply (B []).
    - rewrite IH, (B (x :: s)). reflexivity. }
  intros s n.
  change after_symbol with (Re.Ch isspace Re.Star :: from_group).
  rewrite !rx_star. apply G.
Qed.

Lemma match_here_blind c s :
  isspace c = true ->
  Re.match_here Patterns.selector_price (s ++ [c])
  = Re.match_here Patterns.selector_price s.
Proof.
  intros S. unfold Re.match_here.
  change Patterns.selector_price
    with (Re.Ch Patterns.currency Re.Opt :: after_symbol).
  rewrite !rx_opt. destruct s as [|x s]; cbn [app].
  - rewrite (space_not_currency c S).
    apply (after_symbol_blind c S 0 0 []).
  - rewrite !(after_symbol_blind c S).
    rewrite (after_symbol_blind c S 0 0 (x :: s)). reflexivity.
Qed.

(** A white space after the text changes nothing. *)
Lemma trimmed_match_snoc c t :
  isspace c = true ->
  trimmed_match (Re.search Patterns.selector_price (t ++ [c]))
  = trimmed_match (Re.search Patterns.selector_price t).
Proof.
  intros S. induction t as [|x t IH].
  - pose proof (match_here_blind c [] S) as H. cbn [app] in H.
    cbn [app Re.search]. rewrite H. reflexivity.
  - change ((x :: t) ++ [c]) with (x :: (t ++ [c])). cbn [Re.search].
    change (x :: (t ++ [c])) with ((x :: t) ++ [c]).
    rewrite (match_here_blind c (x :: t) S).
    destruct (Re.match_here Patterns.selector_price (x :: t)) as [m|] eqn:M.
    + cbn [trimmed_match option_map Re.mk_match Re.group0].
      apply ReFacts.rx_bounded in M.
      rewrite firstn_app.
      replace (Re.m_end m - length (x :: t)) with 0 by (simpl in *; lia).
      cbn [firstn]. rewrite app_nil_r. reflexivity.
    + exact IH.
Qed.

(** A white space before the text changes nothing. *)
Lemma trimmed_match_cons c t :
  isspace c = true ->
  trimmed_match (Re.search Patterns.selector_price (c :: t))
  = trimmed_match (Re.search Patterns.selector_price t).
Proof.
  intros S. cbn [Re.search].
  destruct (Re.match_here Patterns.selector_price (c :: t)) as [m|] eqn:M;
    [|reflexivity].
  assert (K : Re.rx from_group 0 0 (c :: t) 0 = None).
  { unfold from_group, after_symbol, Patterns.selector_price.
    cbn [tl]. rewrite rx_open, rx_plus, (space_not_decimal c S).
    reflexivity. }
  assert (G : Re.greedy isspace (Re.rx from_group 0 0) t 1 = Some m).
  { unfold Re.match_here in M.
    change Patterns.selector_price
      with (Re.Ch Patterns.currency Re.Opt :: Re.Ch isspace Re.Star ::
            from_group) in M.
    rewrite rx_opt, (space_not_currency c S), rx_star in M.
    cbn [Re.greedy] in M. rewrite S, K in M.
    destruct (Re.greedy isspace (Re.rx from_group 0 0) t 1);
      [exact M | discriminate M]. }
  pose proof (greedy_shifted isspace _ _ (rx_shifted from_group 0 0 0 0) t 0)
    as H.
  rewrite G in H.
  destruct (Re.greedy isspace (Re.rx from_group 0 0) t 0) as [r'|] eqn:G';
    [|contradiction].
  assert (M' : Re.match_here Patterns.selector_price t = Some r').
  { unfold Re.match_here.
    change Patterns.selector_price
      with (Re.Ch Patterns.currency Re.Opt :: Re.Ch isspace Re.Star ::
            from_group).
    rewrite rx_opt, !rx_star.
    destruct t as [|y t']; [exact G'|].
    destruct (Patterns.currency y) eqn:C; [|exact G'].
    exfalso. revert G. cbn [Re.greedy].
    rewrite (currency_not_space y C).
    unfold from_group, after_symbol, Patterns.selector_price.
    cbn [tl]. rewrite rx_open, rx_plus, (currency_not_decimal y C).
    discriminate. }
  rewrite (ReFacts.search_here _ _ _ M').
  cbn [trimmed_match option_map Re.mk_match Re.group0].
  rewrite H. cbn [firstn]. unfold strip. cbn [lstrip]. rewrite S.
  reflexivity.
Qed.

Lemma trimmed_match_lstrip t :
  trimmed_match (Re.search Patterns.selector_price (lstrip t))
  = trimmed_match (Re.search Patterns.selector_price t).
Proof.
  induction t as [|c t IH]; [reflexivity|].
  cbn [lstrip]. destruct (isspace c) eqn:S; [|reflexivity].
  rewrite IH. symmetry. apply trimmed_match_cons, S.
Qed.

Lemma trimmed_match_rstrip t :
  trimmed_match (Re.search Patterns.selector_price (rstrip t))
  = trimmed_match (Re.search Patterns.selector_price t).
Proof.
  unfold rstrip. rewrite <- (rev_involutive t) at 2.
  induction (rev t) as [|c r IH]; [reflexivity|].
  cbn [lstrip rev]. destruct (isspace c) eqn:S; [|reflexivity].
  rewrite IH. symmetry. apply trimmed_match_snoc, S.
Qed.

(** Method 4 gives the same price on the trimmed text of a candidate as
    on its text. *)
Lemma text_price_strip txt : text_price (strip txt) = text_price txt.
Proof.
  rewrite !text_price_search. unfold strip.
  rewrite trimmed_match_rstrip. apply trimmed_match_lstrip.
Qed.

(** The price of a candidate in the words of the specification: the
    pattern applied to [candidate_text]. *)
Lemma selector_price_of_candidate e :
  selector_price_of (Some e)
  = match candidate_text e with
    | Some txt => trimmed_match (Re.search Patterns.selector_price txt)
    | None => None
    end.
Proof.
  unfold selector_price_of, price_text, candidate_text.
  destruct (named "meta" e).
  - destruct (get e (u "content")) as [txt|]; [|reflexivity].
    rewrite <- text_price_search. reflexivity.
  - rewrite <- text_price_search, text_price_strip. reflexivity.
Qed.

Section SelectorFacts.
Variable json_loads : str -> result pyval.
Variable py_format : pyval -> str.

Local Abbreviation price_method1 := (price_method1 json_loads py_format).
Local Abbreviation extract_price := (extract_price json_loads py_format).
Local Abbreviation methods123 := (methods123 json_loads py_format).

Lemma methods123_dollar soup html q :
  methods123 soup html = Some q -> exists r, q = prefix_dollar r.
Proof.
  apply method3_dollar. intros q'. apply method2_dollar.
  intros q''. apply jsonld_scan_dollar.
Qed.

Lemma extract_price_cases soup html :
  (exists r, methods123 soup html = Some (prefix_dollar r) /\
             extract_price soup html = Some (prefix_dollar r)) \/
  (methods123 soup html = None /\
   extract_price soup html = selector_scan (price_selectors soup)).
Proof.
  unfold Engine.extract_price. fold (methods123 soup html).
  destruct (methods123 soup html) as [q|] eqn:M.
  - destruct (methods123_dollar _ _ _ M) as [r ->]. left. exists r.
    split; [reflexivity|]. apply method4_keeps. reflexivity.
  - right. split; [reflexivity|]. unfold price_method4. cbn [truthy negb].
    destruct (selector_scan _); reflexivity.
Qed.

(** C4 (amended): a price assigned by method 1, 2 or 3 begins with the
    dollar sign.  A price assigned by method 4 is the whole match
    trimmed: it begins with a currency symbol (dollar, euro or pound) when
    the match took one, and with the decimal digit that starts the number
    otherwise. *)
Theorem price_prefix (soup : Soup) (html_text : str) (p : str) :
  extract_price soup html_text = Some p ->
  (methods123 soup html_text = Some p /\
   exists rest, p = Patterns.dollar :: rest) \/
  (methods123 soup html_text = None /\
   exists e txt m c rest,
     In (Some e) (price_selectors soup) /\
     price_text e = Some txt /\
     Re.search Patterns.selector_price txt = Some m /\
     p = strip (Re.group0 m) /\ p = c :: rest /\
     ((Patterns.currency c = true /\
       exists more, Re.group0 m = c :: more) \/
      (isdecimal c = true /\
       exists run more, forallb isspace run = true /\
                        Re.group0 m = run ++ c :: more))).
Proof.
  intros E.
  destruct (extract_price_cases soup html_text) as [(r & M & X)|(M & X)];
    rewrite X in E.
  - injection E as <-. left. split; [exact M|]. exists r. reflexivity.
  - right. split; [exact M|].
    destruct (selector_scan_inv _ _ E) as (before & cand & after & L & _ & P).
    apply selector_price_of_spec in P as (e & txt & m & -> & T & _ & S & ->).
    destruct (selector_search_head _ _ S) as (c & rest & H & Hc).
    exists e, txt, m, c, rest.
    split; [rewrite L; apply in_elt|].
    repeat split; assumption.
Qed.

(** C5 (amended): when methods 1 through 3 all fail, method 4 tries its
    five selector candidates in the fixed order.  Of a candidate that is
    found it takes the content attribute if the element is a meta element
    and its trimmed text otherwise (the code applies the pattern to the
    text as it is, which gives the same price), applies the pattern to
    that text, and on a match the price is the entire match trimmed.  A
    candidate that is not found, or whose text has no match, is passed
    over and the next one is tried: the first candidate that matches
    gives the price, and there is no price when none matches. *)
Theorem selector_scan_order (soup : Soup) (html_text : str) :
  methods123 soup html_text = None ->
  price_selectors soup
  = [ find (fun t => named "span" t && attr_is "itemprop" "price" t) soup;
      find (fun t => named "meta" t && attr_is "itemprop" "price" t) soup;
      find (fun t => named "span" t &&
                     attr_search "data-test" Patterns.price_word t) soup;
      find (attr_search "class" Patterns.price_word) soup;
      find (fun t => named "span" t &&
                     attr_search "class" Patterns.price_word t) soup ] /\
  (forall cand,
     selector_price_of cand = None <->
     cand = None \/
     exists e, cand = Some e /\
       (candidate_text e = None \/
        exists txt, candidate_text e = Some txt /\
                    Re.search Patterns.selector_price txt = None)) /\
  (forall before e after txt m,
     price_selectors soup = before ++ Some e :: after ->
     Forall (fun c => selector_price_of c = None) before ->
     candidate_text e = Some txt ->
     Re.search Patterns.selector_price txt = Some m ->
     extract_price soup html_text = Some (strip (Re.group0 m))) /\
  (Forall (fun c => selector_price_of c = None) (price_selectors soup) ->
   extract_price soup html_text = None).
Proof.
  intros M.
  destruct (extract_price_cases soup html_text) as [(r & M' & _)|(_ & X)];
    [congruence|].
  split; [reflexivity|]. split; [|split].
  - intros [e|]; [|split; [auto | reflexivity]].
    rewrite selector_price_of_candidate. split.
    + intros H. right. exists e. split; [reflexivity|].
      destruct (candidate_text e) as [txt|]; [|auto].
      right. exists txt. split; [reflexivity|].
      destruct (Re.search _ txt); [discriminate H | reflexivity].
    + intros [X0 | (e' & E & [T | (txt & T & S)])]; [discriminate X0| |];
        injection E as <-; rewrite T; [reflexivity|].
      rewrite S. reflexivity.
  - intros before e after txt m E F T S. rewrite X.
    apply (selector_scan_first _ before (Some e) after); [exact E|exact F|].
    rewrite selector_price_of_candidate, T, S. reflexivity.
  - intros F. rewrite X. apply selector_scan_none, F.
Qed.

(** X3: the four price methods are tried strictly in order and the first
    that yields decides.  A JSON-LD price is the price whatever the other
    sources hold; the product:price:amount meta content, with the dollar
    sign, is the price when JSON-LD yields nothing; the raw-text scan
    decides when these two yield nothing; and the selector scan decides
    only when the first three yield nothing. *)
Theorem price_method_priority (soup : Soup) (html_text : str) :
  (forall p, price_method1 soup = Some p ->
     extract_price soup html_text = Some p) /\
  (price_method1 soup = None ->
     forall t c,
       find (meta_property "product:price:amount") soup = Some t ->
       get t (u "content") = Some c -> c <> [] ->
       extract_price soup html_text = Some (prefix_dollar c)) /\
  (price_method2 soup (price_method1 soup) = None ->
     forall p, pattern_scan Patterns.price_patterns html_text = Some p ->
       extract_price soup html_text = Some p) /\
  (methods123 soup html_text = None ->
     extract_price soup html_text = selector_scan (price_selectors soup)).
Proof.
  split; [|split; [|split]].
  - intros p E. destruct (jsonld_scan_dollar _ _ _ _ E) as [r ->].
    apply method1_wins, E.
  - intros E t c F G N. unfold Engine.extract_price. rewrite E.
    unfold price_method2. cbn [truthy negb]. rewrite F.
    destruct (found_with_intro t "content" c G N) as [-> ->].
    rewrite method3_keeps, method4_keeps; reflexivity.
  - intros E p S. destruct (pattern_scan_dollar _ _ _ S) as [r ->].
    unfold Engine.extract_price, price_method3. rewrite E, S.
    cbn [truthy negb]. apply method4_keeps. reflexivity.
  - intros E.
    destruct (extract_price_cases soup html_text) as [(r & M & _)|(_ & X)];
      [congruence | exact X].
Qed.

End SelectorFacts.

(** X2: method 4 assigns the same price from the text of an element and
    from that text trimmed. *)
Theorem method4_trim_invariant (e : Tag) :
  named "meta" e = false ->
  selector_price_of (Some e)
  = selector_price_of
      (Some {| name := name e; attrs := attrs e;
               get_text := strip (get_text e); string_ := string_ e |}).
Proof.
  intros M. unfold selector_price_of, price_text, named in *.
  cbn [name get_text]. rewrite M.
  change (text_price (get_text e) = text_price (strip (get_text e))).
  symmetry. apply text_price_strip.
Qed.

Lemma method4_trim_invariant_witness :
  selector_price_of
    (Some (Fixture.tag "span" [] (u "  $ 5 ") (Some (u "  $ 5 "))))
  = Some (u "$ 5") /\
  selector_price_of
    (Some (Fixture.tag "span" [] (u "$ 5") (Some (u "  $ 5 "))))
  = Some (u "$ 5").
Proof.
  split; [reflexivity|].
  exact (eq_trans
           (eq_sym (method4_trim_invariant
                      (Fixture.tag "span" [] (u "  $ 5 ")
                         (Some (u "  $ 5 ")))
                      eq_refl))
           eq_refl).
Defined.

(** C4 at a page whose price stands in a span element without a symbol:
    the price is assigned by method 4 and begins with a digit. *)
Lemma price_prefix_witness :
  (methods123 Fixture.json_loads Fixture.py_format
     Fixture.span_price_page Fixture.span_price_raw = Some (u "19.99") /\
   exists rest, u "19.99" = Patterns.dollar :: rest) \/
  (methods123 Fixture.json_loads Fixture.py_format
     Fixture.span_price_page Fixture.span_price_raw = None /\
   exists e txt m c rest,
     In (Some e) (price_selectors Fixture.span_price_page) /\
     price_text e = Some txt /\
     Re.search Patterns.selector_price txt = Some m /\
     u "19.99" = strip (Re.group0 m) /\ u "19.99" = c :: rest /\
     ((Patterns.currency c = true /\
       exists more, Re.group0 m = c :: more) \/
      (isdecimal c = true /\
       exists run more, forallb isspace run = true /\
                        Re.group0 m = run ++ c :: more))).
Proof.
  exact (price_prefix Fixture.json_loads Fixture.py_format
           Fixture.span_price_page Fixture.span_price_raw (u "19.99")
           eq_refl).
Defined.

(** C4, as stated, fails for method 4: the price of this page is 19.99,
    which begins with a digit and not with a currency symbol. *)
Lemma price_prefix_counterexample :
  (forall json_loads py_format,
     methods123 json_loads py_format
       Fixture.span_price_page Fixture.span_price_raw = None /\
     extract_price json_loads py_format
       Fixture.span_price_page Fixture.span_price_raw
     = Some (u "19.99")) /\
  hd_error (u "19.99") = Some 49%N /\
  Patterns.currency 49%N = false.
Proof.
  split; [|split; reflexivity].
  intros json_loads py_format. split; reflexivity.
Qed.

(** C5 at a page with two candidates: the span element is found first
    and has no number, the meta element is found second and gives the
    price. *)
Lemma selector_scan_order_witness :
  extract_price Fixture.json_loads Fixture.py_format
    Fixture.two_candidates_page Fixture.two_candidates_raw
  = Some (u "$5").
Proof.
  refine (proj1 (proj2 (proj2
            (selector_scan_order Fixture.json_loads Fixture.py_format
               Fixture.two_candidates_page Fixture.two_candidates_raw
               eq_refl)))
            [Some (Fixture.price_span "call us")] Fixture.price_meta
            [None; None; None] (u "$5")
            {| Re.group0 := u "$5"; Re.group1 := u "5" |}
            eq_refl _ eq_refl eq_refl).
  constructor; [reflexivity | constructor].
Defined.

(** C5, as stated, fails: the first candidate found is the span element,
    whose text has no match, and the outcome is nevertheless decided by
    the meta element found after it. *)
Lemma selector_scan_order_counterexample :
  hd_error (price_selectors Fixture.two_candidates_page)
  = Some (Some (Fixture.price_span "call us")) /\
  candidate_text (Fixture.price_span "call us") = Some (u "call us") /\
  Re.search Patterns.selector_price (u "call us") = None /\
  (forall json_loads py_format,
     methods123 json_loads py_format
       Fixture.two_candidates_page Fixture.two_candidates_raw = None /\
     extract_price json_loads py_format
       Fixture.two_candidates_page Fixture.two_candidates_raw
     = Some (u "$5")).
Proof.
  do 3 (split; [reflexivity|]).
  intros json_loads py_format. split; reflexivity.
Qed.

(** ** The engine boundary *)

Lemma raise_for_status_spec r :
  (raise_for_status r = Raise HTTPError /\
   (400 <= status_code r < 600)%Z) \/
  (raise_for_status r = Ret tt /\ ~ (400 <= status_code r < 600)%Z).
Proof.
  unfold raise_for_status.
  destruct ((400 <=? status_code r)%Z && (status_code r <? 600)%Z) eqn:B.
  - left. apply andb_true_iff in B as [A C].
    apply Z.leb_le in A. apply Z.ltb_lt in C. auto.
  - right. split; [reflexivity|]. intros [A C].
    apply Z.leb_le in A. apply Z.ltb_lt in C. rewrite A, C in B.
    discriminate B.
Qed.

Section EngineFacts.
Variable requests_get : str -> result Response.
Variable BeautifulSoup : list Byte.byte -> result Soup.
Variable json_loads : str -> result pyval.
Variable py_format : pyval -> str.
Variable urljoin : str -> str -> result str.

Local Abbreviation extract_product_info :=
  (extract_product_info requests_get BeautifulSoup json_loads py_format
     urljoin).
Local Abbreviation extract_body :=
  (extract_body requests_get BeautifulSoup json_loads py_format urljoin).
Local Abbreviation api_extract_product :=
  (api_extract_product requests_get BeautifulSoup json_loads py_format
     urljoin).
Local Abbreviation extract_price := (extract_price json_loads py_format).
Local Abbreviation extract_image := (extract_image urljoin).
Local Abbreviation assembled := (assembled json_loads py_format).

Lemma extract_body_ok url r soup img :
  requests_get url = Ret r ->
  ~ (400 <= status_code r < 600)%Z ->
  BeautifulSoup (content r) = Ret soup ->
  extract_image url soup = Ret img ->
  extract_body url = Ret (assembled url soup (text r) img).
Proof.
  intros G S B I. unfold Engine.extract_body. rewrite G. cbn [bind].
  destruct (raise_for_status_spec r) as [[_ X]|[-> _]]; [contradiction|].
  cbn [bind]. rewrite B. cbn [bind]. unfold resolve. rewrite I.
  reflexivity.
Qed.

(** A record the engine returns was assembled on a page that was
    fetched without error status and parsed. *)
Lemma extract_info_inv url p :
  extract_product_info url = Some p ->
  exists r soup img,
    requests_get url = Ret r /\
    ~ (400 <= status_code r < 600)%Z /\
    BeautifulSoup (content r) = Ret soup /\
    extract_image url soup = Ret img /\
    p = assembled url soup (text r) img.
Proof.
  unfold Engine.extract_product_info, Engine.extract_body.
  destruct (requests_get url) as [r|]; cbn [bind]; [|discriminate].
  destruct (raise_for_status_spec r) as [[-> _]|[-> S]]; cbn [bind];
    [discriminate|].
  destruct (BeautifulSoup (content r)) as [soup|] eqn:B; cbn [bind];
    [|discriminate].
  unfold resolve.
  destruct (Engine.extract_image urljoin url soup) as [img|] eqn:I;
    cbn [bind]; [|discriminate].
  intros E. injection E as <-. exists r, soup, img.
  split; [reflexivity|]. split; [exact S|]. split; [exact B|].
  split; [exact I | reflexivity].
Qed.

(** C8 (amended): the engine returns [None], and no record, when the
    fetch raises, when the status of the response is a client or server
    error (400 to 599, the codes for which [raise_for_status] raises),
    when the parser raises, and when a resolver raises; and a record
    that it does return is complete: the fetch and the parser returned,
    the status was no error code, and every field is what its resolver
    computed on the page.  The engine is a total function into an
    optional record, so nothing else escapes it. *)
Theorem engine_failure_signal (url : str) :
  (forall e, requests_get url = Raise e ->
     extract_product_info url = None) /\
  (forall r, requests_get url = Ret r ->
     (400 <= status_code r < 600)%Z ->
     extract_product_info url = None) /\
  (forall r e, requests_get url = Ret r ->
     BeautifulSoup (content r) = Raise e ->
     extract_product_info url = None) /\
  (forall r soup e, requests_get url = Ret r ->
     BeautifulSoup (content r) = Ret soup ->
     extract_image url soup = Raise e ->
     extract_product_info url = None) /\
  (forall p, extract_product_info url = Some p ->
     exists r soup img,
       requests_get url = Ret r /\
       ~ (400 <= status_code r < 600)%Z /\
       BeautifulSoup (content r) = Ret soup /\
       extract_image url soup = Ret img /\
       p = assembled url soup (text r) img).
Proof.
  split; [|split; [|split; [|split]]];
    try unfold Engine.extract_product_info, Engine.extract_body.
  - intros e ->. reflexivity.
  - intros r -> S. cbn [bind].
    destruct (raise_for_status_spec r) as [[-> _]|[_ X]];
      [reflexivity | contradiction].
  - intros r e -> B. cbn [bind].
    destruct (raise_for_status r); cbn [bind]; [|reflexivity].
    rewrite B. reflexivity.
  - intros r soup e -> B I. cbn [bind].
    destruct (raise_for_status r); cbn [bind]; [|reflexivity].
    rewrite B. cbn [bind]. unfold resolve. rewrite I. reflexivity.
  - intros p E. apply extract_info_inv in E. exact E.
Qed.

(** C9 (amended): without a url parameter, or with an empty one, the
    handler answers 400 with the literal error body and does not call the
    engine.  Otherwise it calls the engine once and answers 404, with
    the all-null data payload that echoes the url, exactly when the
    engine returns no record or a record whose title and image are both
    absent or empty; in every other case it answers 200 with the five
    fields of the record. *)
Theorem extract_handler (arg : option str) :
  (truthy arg = false ->
     api_extract_product arg
     = {| body := PDict
            [ (u "success", PBool false);
              (u "error", PStr (u "Missing required parameter: url"));
              (u "message", PStr (u "Please provide a product URL")) ];
          status := 400;
          engine_calls := [] |}) /\
  (forall url, arg = Some url -> url <> [] ->
     let run := api_extract_product arg in
     engine_calls run = [url] /\
     (status run = 404%Z <->
        extract_product_info url = None \/
        exists p, extract_product_info url = Some p /\
                  truthy (image p) = false /\ truthy (title p) = false) /\
     (status run = 404%Z ->
        body run
        = PDict
            [ (u "success", PBool false);
              (u "error", PStr (u "Could not extract product information"));
              (u "message",
               PStr (u "The site may be blocking scrapers or the URL is invalid"));
              (u "data", PDict [ (u "title", PNone);
                                 (u "price", PNone);
                                 (u "image", PNone);
                                 (u "description", PNone);
                                 (u "url", PStr url) ]) ]) /\
     (status run <> 404%Z ->
        exists p, extract_product_info url = Some p /\
                  status run = 200%Z /\
                  body run
                  = PDict
                      [ (u "success", PBool true);
                        (u "data",
                         PDict [ (u "title", opt_json (title p));
                                 (u "price", opt_json (price p));
                                 (u "image", opt_json (image p));
                                 (u "description",
                                  opt_json (description p));
                                 (u "url", PStr (Engine.url p)) ]) ])).
Proof.
  split.
  - intros T. unfold Engine.api_extract_product. rewrite T. reflexivity.
  - intros url -> N. destruct url as [|a url]; [congruence|].
    unfold Engine.api_extract_product. cbn [truthy nonempty negb].
    destruct (extract_product_info (a :: url)) as [p|] eqn:E.
    + destruct (truthy (image p) || truthy (title p)) eqn:B; cbn.
      * split; [reflexivity|]. split; [|split].
        -- split; [discriminate|].
           intros [X | (q & X & I & T)]; [discriminate X|].
           injection X as <-. rewrite I, T in B. discriminate B.
        -- discriminate.
        -- intros _. exists p. auto.
      * apply orb_false_iff in B as [I T].
        split; [reflexivity|]. split; [|split].
        -- split; [|reflexivity]. intros _. right. exists p. auto.
        -- reflexivity.
        -- intros X. contradiction X. reflexivity.
    + cbn. split; [reflexivity|]. split; [|split].
      * split; [auto | reflexivity].
      * reflexivity.
      * intros X. contradiction X. reflexivity.
Qed.

(** C10: the handler tests its two anchor fields by truthiness.  For a
    record whose image is absent and whose title is the empty string the
    answer is the 404 envelope with all-null data, although the title
    field is set; and the engine returns such a record for a page
    without image whose title element has empty text. *)
Theorem empty_title_is_failure (url : str) :
  url <> [] ->
  (forall p, extract_product_info url = Some p ->
     image p = None -> title p = Some [] ->
     api_extract_product (Some url)
     = {| body := PDict
            [ (u "success", PBool false);
              (u "error", PStr (u "Could not extract product information"));
              (u "message",
               PStr (u "The site may be blocking scrapers or the URL is invalid"));
              (u "data", PDict [ (u "title", PNone);
                                 (u "price", PNone);
                                 (u "image", PNone);
                                 (u "description", PNone);
                                 (u "url", PStr url) ]) ];
          status := 404;
          engine_calls := [url] |}) /\
  (forall r soup t,
     requests_get url = Ret r ->
     ~ (400 <= status_code r < 600)%Z ->
     BeautifulSoup (content r) = Ret soup ->
     extract_image url soup = Ret None ->
     found_with (find (meta_property "og:title") soup) "content" = false ->
     find (named "title") soup = Some t ->
     strip (get_text t) = [] ->
     exists p, extract_product_info url = Some p /\
               image p = None /\ title p = Some []).
Proof.
  intros N. split.
  - intros p E I T. destruct url as [|a url]; [congruence|].
    unfold Engine.api_extract_product. cbn [truthy nonempty negb].
    rewrite E, I, T. reflexivity.
  - intros r soup t G S B I O T X.
    exists (assembled url soup (text r) None).
    unfold Engine.extract_product_info.
    rewrite (extract_body_ok url r soup None G S B I).
    split; [reflexivity|]. split; [reflexivity|].
    cbn [assembled title]. unfold extract_title. rewrite O, T, X.
    reflexivity.
Qed.

(** X1: a record returned by the engine carries the input URL as it was
    given. *)
Theorem engine_url_verbatim (url : str) (p : ProductInfo) :
  extract_product_info url = Some p -> Engine.url p = url.
Proof.
  intros E.
  destruct (extract_info_inv url p E) as (r & soup & img & _ & _ & _ & _ & ->).
  reflexivity.
Qed.

End EngineFacts.

Lemma engine_url_verbatim_witness :
  exists p,
    extract_product_info (Fixture.serve 200 Fixture.title_raw)
      (Fixture.parsed Fixture.title_page)
      Fixture.json_loads Fixture.py_format Fixture.urljoin
      Fixture.base_url = Some p /\
    Engine.url p = Fixture.base_url.
Proof.
  eexists. split; [reflexivity|].
  exact (engine_url_verbatim (Fixture.serve 200 Fixture.title_raw)
           (Fixture.parsed Fixture.title_page)
           Fixture.json_loads Fixture.py_format Fixture.urljoin
           Fixture.base_url _ eq_refl).
Defined.

(** C8 at a site that answers 404: the engine returns no record. *)
Lemma engine_failure_signal_witness :
  extract_product_info (Fixture.serve 404 Fixture.title_raw)
    (Fixture.parsed Fixture.title_page)
    Fixture.json_loads Fixture.py_format Fixture.urljoin Fixture.base_url
  = None.
Proof.
  refine (proj1 (proj2
            (engine_failure_signal (Fixture.serve 404 Fixture.title_raw)
               (Fixture.parsed Fixture.title_page)
               Fixture.json_loads Fixture.py_format Fixture.urljoin
               Fixture.base_url))
            _ eq_refl _).
  cbn. lia.
Defined.

(** C9 without a url parameter: 400, the literal body, no call of the
    engine. *)
Lemma extract_handler_witness :
  api_extract_product (Fixture.serve 200 Fixture.title_raw)
    (Fixture.parsed Fixture.title_page)
    Fixture.json_loads Fixture.py_format Fixture.urljoin None
  = {| body := missing_url_body; status := 400; engine_calls := [] |}.
Proof.
  exact (proj1 (extract_handler (Fixture.serve 200 Fixture.title_raw)
                  (Fixture.parsed Fixture.title_page)
                  Fixture.json_loads Fixture.py_format Fixture.urljoin
                  None)
           eq_refl).
Defined.

(** C8, as stated, fails for a status that is not 2xx and not an error
    code: a response with status 300 (multiple choices, which [requests]
    does not follow) passes [raise_for_status], and the engine parses its
    body and returns a record. *)
Lemma engine_failure_signal_counterexample :
  (exists r, Fixture.serve 300 Fixture.title_raw Fixture.base_url = Ret r /\
             status_code r = 300%Z /\
             ((200 <=? status_code r) && (status_code r <? 300))%Z = false) /\
  (forall json_loads py_format urljoin,
     extract_product_info (Fixture.serve 300 Fixture.title_raw)
       (Fixture.parsed Fixture.title_page) json_loads py_format urljoin
       Fixture.base_url
     = Some {| image := None;
               title := Some (u "Widget");
               price := None;
               description := None;
               url := Fixture.base_url |}).
Proof.
  split.
  - eexists. split; [reflexivity|]. split; reflexivity.
  - intros json_loads py_format urljoin. reflexivity.
Qed.

(** C9, as stated, fails: the engine returns a record whose title is
    present (it is the empty string, not absent), and the handler
    answers 404. *)
Lemma extract_handler_counterexample :
  extract_product_info (Fixture.serve 200 Fixture.blank_title_raw)
    (Fixture.parsed Fixture.blank_title_page)
    Fixture.json_loads Fixture.py_format Fixture.urljoin
    Fixture.base_url
  = Some {| image := None;
            title := Some [];
            price := None;
            description := None;
            url := Fixture.base_url |} /\
  Some ([] : str) <> None /\
  status (api_extract_product (Fixture.serve 200 Fixture.blank_title_raw)
            (Fixture.parsed Fixture.blank_title_page)
            Fixture.json_loads Fixture.py_format Fixture.urljoin
            (Some Fixture.base_url))
  = 404%Z.
Proof.
  split; [reflexivity|]. split; [discriminate | reflexivity].
Qed.

(** C10 at a page whose title element is empty: the engine returns a
    record with the empty string as title, and the handler answers with
    the 404 envelope. *)
Lemma empty_title_is_failure_witness :
  api_extract_product (Fixture.serve 200 Fixture.blank_title_raw)
    (Fixture.parsed Fixture.blank_title_page)
    Fixture.json_loads Fixture.py_format Fixture.urljoin
    (Some Fixture.base_url)
  = {| body := failure_body Fixture.base_url;
       status := 404;
       engine_calls := [Fixture.base_url] |} /\
  exists p,
    extract_product_info (Fixture.serve 200 Fixture.blank_title_raw)
      (Fixture.parsed Fixture.blank_title_page)
      Fixture.json_loads Fixture.py_format Fixture.urljoin
      Fixture.base_url = Some p /\
    image p = None /\ title p = Some [].
Proof.
  assert (N : Fixture.base_url <> []) by (intros X; discriminate X).
  pose proof (empty_title_is_failure
                (Fixture.serve 200 Fixture.blank_title_raw)
                (Fixture.parsed Fixture.blank_title_page)
                Fixture.json_loads Fixture.py_format Fixture.urljoin
                Fixture.base_url N) as [A B].
  split.
  - exact (A _ eq_refl eq_refl eq_refl).
  - refine (B _ Fixture.blank_title_page (Fixture.void "title" [])
              eq_refl _ eq_refl eq_refl eq_refl eq_refl eq_refl).
    cbn. lia.
Defined.

(** * Further properties of the code *)

(** ** Trimming *)

Lemma lstrip_head s c r : lstrip s = c :: r -> isspace c = false.
Proof.
  induction s as [|a s IH]; simpl; [discriminate|].
  destruct (isspace a) eqn:A; [exact IH|].
  intros E. injection E as <- _. exact A.
Qed.

Lemma lstrip_nil s : lstrip s = [] <-> forallb isspace s = true.
Proof.
  induction s as [|a s IH]; simpl; [tauto|].
  destruct (isspace a); simpl; [exact IH|].
  split; discriminate.
Qed.

Lemma lstrip_fixed s :
  (forall c r, s = c :: r -> isspace c = false) -> lstrip s = s.
Proof.
  destruct s as [|a s]; [reflexivity|]. intros H. simpl.
  rewrite (H a s eq_refl). reflexivity.
Qed.

Lemma rstrip_last s r c : rstrip s = r ++ [c] -> isspace c = false.
Proof.
  unfold rstrip. intros E. apply (f_equal (@rev char)) in E.
  rewrite rev_involutive, rev_app_distr in E. simpl in E.
  apply lstrip_head in E. exact E.
Qed.

Lemma rstrip_fixed s :
  (forall r c, s = r ++ [c] -> isspace c = false) -> rstrip s = s.
Proof.
  intros H. unfold rstrip. rewrite lstrip_fixed.
  - apply rev_involutive.
  - intros c r E. apply (H (rev r) c).
    rewrite <- (rev_involutive s), E. reflexivity.
Qed.

Lemma strip_head_visible s c r : strip s = c :: r -> isspace c = false.
Proof.
  unfold strip. destruct (lstrip s) as [|a x] eqn:L.
  - discriminate.
  - pose proof (lstrip_head _ _ _ L) as A.
    rewrite (rstrip_cons a x A). intros E. injection E as <- _. exact A.
Qed.

Lemma strip_last_visible s r c : strip s = r ++ [c] -> isspace c = false.
Proof. unfold strip. apply rstrip_last. Qed.

Lemma strip_nil s : strip s = [] <-> forallb isspace s = true.
Proof.
  rewrite <- lstrip_nil. unfold strip. split.
  - destruct (lstrip s) as [|a x] eqn:L; [reflexivity|].
    rewrite (rstrip_cons a x (lstrip_head _ _ _ L)). discriminate.
  - intros ->. reflexivity.
Qed.

Lemma strip_strip s : strip (strip s) = strip s.
Proof.
  unfold strip at 1.
  rewrite (lstrip_fixed (strip s)) by apply strip_head_visible.
  apply rstrip_fixed, strip_last_visible.
Qed.

Lemma lstrip_keeps_visible c s :
  In c s -> isspace c = false -> In c (lstrip s).
Proof.
  intros I V. induction s as [|a s IH]; [contradiction|].
  simpl. destruct (isspace a) eqn:A; [|exact I].
  destruct I as [<- | I]; [congruence | exact (IH I)].
Qed.

Lemma strip_keeps_visible c s :
  In c s -> isspace c = false -> In c (strip s).
Proof.
  intros I V. unfold strip, rstrip. rewrite <- in_rev.
  apply lstrip_keeps_visible; [|exact V].
  rewrite <- in_rev. apply lstrip_keeps_visible; assumption.
Qed.

(** ** Title and description: white space *)

(** X5: when the og:title meta element gives no title, the title is the
    text of the title element, or else of the first h1 element, without
    white space at either end; and it is the empty string exactly when
    that text is white space only. *)
Theorem title_is_trimmed (soup : Soup) (t : str) :
  found_with (find (meta_property "og:title") soup) "content" = false ->
  extract_title soup = Some t ->
  (exists e,
     (find (named "title") soup = Some e \/
      find (named "title") soup = None /\ find (named "h1") soup = Some e) /\
     t = strip (get_text e) /\
     (t = [] <-> forallb isspace (get_text e) = true)) /\
  strip t = t /\
  (forall c r, t = c :: r -> isspace c = false) /\
  (forall r c, t = r ++ [c] -> isspace c = false).
Proof.
  intros O. unfold extract_title. rewrite O.
  assert (K : forall e, t = strip (get_text e) ->
                strip t = t /\
                (forall c r, t = c :: r -> isspace c = false) /\
                (forall r c, t = r ++ [c] -> isspace c = false)).
  { intros e ->. split; [apply strip_strip|]. split.
    - intros c r E. exact (strip_head_visible _ _ _ E).
    - intros r c E. exact (strip_last_visible _ _ _ E). }
  destruct (find (named "title") soup) as [e|] eqn:T.
  - intros E. injection E as <-. split; [|apply (K e); reflexivity].
    exists e. split; [auto|]. split; [reflexivity | apply strip_nil].
  - destruct (find (named "h1") soup) as [e|] eqn:H; [|discriminate].
    intros E. injection E as <-. split; [|apply (K e); reflexivity].
    exists e. split; [auto|]. split; [reflexivity | apply strip_nil].
Qed.

(** X5 at a page whose title element holds two blanks. *)
Lemma title_is_trimmed_witness :
  exists e,
    (find (named "title") Examples.blank_text_title_page = Some e \/
     find (named "title") Examples.blank_text_title_page = None /\
     find (named "h1") Examples.blank_text_title_page = Some e) /\
    ([] : str) = strip (get_text e) /\
    (([] : str) = [] <-> forallb isspace (get_text e) = true).
Proof.
  exact (proj1 (title_is_trimmed Examples.blank_text_title_page []
                  eq_refl eq_refl)).
Defined.

(** X6: a description taken from the itemprop=description element never
    starts with white space; it is the whole trimmed text, without white
    space at its end, when that text has at most 500 characters; and it
    is the empty string exactly when the text of the element is white
    space only. *)
Theorem description_edges (soup : Soup) (e : Tag) :
  found_with (find (meta_property "og:description") soup) "content"
  = false ->
  found_with (find (meta_name "description") soup) "content" = false ->
  find (attr_is "itemprop" "description") soup = Some e ->
  exists d,
    extract_description soup = Some d /\
    (forall c r, d = c :: r -> isspace c = false) /\
    (length (strip (get_text e)) <= 500 ->
       d = strip (get_text e) /\
       forall r c, d = r ++ [c] -> isspace c = false) /\
    (d = [] <-> forallb isspace (get_text e) = true).
Proof.
  intros O M F. unfold extract_description. rewrite O, M.
  change (fun t0 : Tag => attr_is "itemprop" "description" t0)
    with (attr_is "itemprop" "description"). rewrite F.
  eexists. split; [reflexivity|]. split; [|split].
  - intros c r E. destruct (strip (get_text e)) as [|a x] eqn:S;
      [discriminate E|].
    cbn [firstn] in E. injection E as <- _.
    exact (strip_head_visible _ _ _ S).
  - intros L. rewrite firstn_all2 by exact L. split; [reflexivity|].
    intros r c E. exact (strip_last_visible _ _ _ E).
  - rewrite <- strip_nil. destruct (strip (get_text e)); cbn [firstn].
    + tauto.
    + split; discriminate.
Qed.

(** X6 at the page with 600 letters between white space: the description
    starts with a letter. *)
Lemma description_edges_witness :
  exists d,
    extract_description Fixture.long_description_page = Some d /\
    hd_error d = Some 120%N /\ isspace 120%N = false.
Proof.
  destruct (description_edges Fixture.long_description_page
              (Fixture.tag "div" [(u "itemprop", u "description")]
                 Fixture.long_text (Some Fixture.long_text))
              eq_refl eq_refl eq_refl) as (d & E & H & _).
  exists d. split; [exact E|].
  assert (X : d = repeat 120%N 500).
  { assert (Y : Some d = Some (repeat 120%N 500))
      by (rewrite <- E; reflexivity).
    injection Y as ->. reflexivity. }
  rewrite X. split; reflexivity.
Defined.

(** ** Price, method 1: when a block yields *)

Section JsonLdBlocks.
Variable json_loads : str -> result pyval.
Variable py_format : pyval -> str.

Local Abbreviation jsonld_price := (jsonld_price json_loads py_format).

Lemma is_key_lookup {V} k (d : list (str * V)) :
  is_key k d = true -> exists v, lookup k d = Some v.
Proof. unfold is_key. destruct (lookup k d) as [v|]; [eauto|discriminate]. Qed.

(** What a dictionary [top] makes of its offers. *)
Lemma offers_of_dict top p :
  (has_offers <- py_in (u "offers") (PDict top) ;;
   if has_offers then
     offers <- py_getitem (PDict top) (u "offers") ;;
     match offers with
     | PDict o =>
         match lookup (u "price") o with
         | Some p => Ret (Some (prefix_dollar (py_format p)))
         | None => Ret None
         end
     | PList (first :: _) =>
         has_price <- py_in (u "price") first ;;
         if has_price then
           p <- py_getitem first (u "price") ;;
           Ret (Some (prefix_dollar (py_format p)))
         else Ret None
     | _ => Ret None
     end
   else Ret None) = Ret (Some p) ->
  exists v,
    ((exists o, lookup (u "offers") top = Some (PDict o) /\
                lookup (u "price") o = Some v) \/
     (exists f more,
        lookup (u "offers") top = Some (PList (PDict f :: more)) /\
        lookup (u "price") f = Some v)) /\
    p = prefix_dollar (py_format v).
Proof.
  cbn [py_in bind py_getitem]. unfold is_key.
  destruct (lookup (u "offers") top) as [offers|]; [|discriminate].
  cbn [bind].
  destruct offers as [| | | | |l|o]; try discriminate.
  - destruct l as [|first more]; [discriminate|].
    destruct first as [| | | |s|l'|f]; cbn [py_in bind]; try discriminate.
    + destruct (contains (u "price") s); cbn [py_getitem bind]; discriminate.
    + destruct (existsb (is_str (u "price")) l'); cbn [py_getitem bind];
        discriminate.
    + unfold is_key. cbn [py_getitem].
      destruct (lookup (u "price") f) as [v|] eqn:P; cbn [bind];
        [|discriminate].
      intros E. injection E as <-. exists v. split; [|reflexivity].
      right. exists f, more. split; [reflexivity | exact P].
  - destruct (lookup (u "price") o) as [v|] eqn:P; [|discriminate].
    intros E. injection E as <-. exists v. split; [|reflexivity].
    left. exists o. split; [reflexivity | exact P].
Qed.

(** X7: a JSON-LD script block assigns a price exactly when its content
    is a single string that parses as JSON to a dictionary, or to a list
    whose first element is a dictionary, in which offers is a dictionary
    with the key price or a list whose first element is such a
    dictionary; the price assigned is then the dollar sign and the text of
    that value.  Every other block (no single string, not JSON, an empty
    list, a scalar or a string at the top, offers missing, empty or of
    another shape) assigns nothing and does not stop the scan. *)
Theorem jsonld_block_yields (script : Tag) (p : str) :
  jsonld_price script = Ret (Some p) <->
  exists doc data v,
    string_ script = Some doc /\ json_loads doc = Ret data /\
    offers_price data v /\ p = prefix_dollar (py_format v).
Proof.
  unfold Engine.jsonld_price. split.
  - destruct (string_ script) as [doc|]; [|discriminate].
    destruct (json_loads doc) as [data|] eqn:J; cbn [bind]; [|discriminate].
    intros H.
    assert (D : exists top,
               (data = PDict top \/
                exists more, data = PList (PDict top :: more)) /\
               exists v,
                 ((exists o, lookup (u "offers") top = Some (PDict o) /\
                             lookup (u "price") o = Some v) \/
                  (exists f more,
                     lookup (u "offers") top
                     = Some (PList (PDict f :: more)) /\
                     lookup (u "price") f = Some v)) /\
                 p = prefix_dollar (py_format v)).
    { destruct data as [| | | |s|l|top]; cbn [bind py_in] in H;
        try discriminate H.
      - destruct (contains (u "offers") s); cbn [py_getitem bind] in H;
          discriminate H.
      - destruct l as [|x more]; cbn [py_first bind] in H;
          [discriminate H|].
        destruct x as [| | | |s|l'|top]; cbn [py_in bind] in H;
          try discriminate H.
        + destruct (contains (u "offers") s); cbn [py_getitem bind] in H;
            discriminate H.
        + destruct (existsb (is_str (u "offers")) l');
            cbn [py_getitem bind] in H; discriminate H.
        + exists top. split; [right; exists more; reflexivity|].
          apply offers_of_dict. exact H.
      - exists top. split; [left; reflexivity|].
        apply offers_of_dict. exact H. }
    destruct D as (top & T & v & O & ->).
    exists doc, data, v. split; [reflexivity|]. split; [exact J|].
    split; [exists top; auto | reflexivity].
  - intros (doc & data & v & -> & -> & (top & T & O) & ->). cbn [bind].
    assert (R : (data0 <- Ret (PDict top) ;;
                 has_offers <- py_in (u "offers") data0 ;;
                 if has_offers then
                   offers <- py_getitem data0 (u "offers") ;;
                   match offers with
                   | PDict o =>
                       match lookup (u "price") o with
                       | Some p => Ret (Some (prefix_dollar (py_format p)))
                       | None => Ret None
                       end
                   | PList (first :: _) =>
                       has_price <- py_in (u "price") first ;;
                       if has_price then
                         p <- py_getitem first (u "price") ;;
                         Ret (Some (prefix_dollar (py_format p)))
                       else Ret None
                   | _ => Ret None
                   end
                 else Ret None)
                = Ret (Some (prefix_dollar (py_format v)))).
    { cbn [bind py_in py_getitem]. unfold is_key.
      destruct O as [(o & O & P) | (f & more & O & P)]; rewrite O;
        cbn [bind py_in py_getitem]; unfold is_key; rewrite P; reflexivity. }
    destruct T as [-> | (more & ->)]; exact R.
Qed.

End JsonLdBlocks.

(** X7 at a block whose offers are a list: the price of the first
    element, with the dollar sign. *)
Lemma jsonld_block_yields_witness :
  jsonld_price Examples.json_loads Fixture.py_format
    (Fixture.ld_script Examples.offers_list_doc)
  = Ret (Some (u "$7.00")).
Proof.
  apply (proj2 (jsonld_block_yields Examples.json_loads Fixture.py_format
                  (Fixture.ld_script Examples.offers_list_doc)
                  (u "$7.00"))).
  exists Examples.offers_list_doc, Examples.offers_list_val, (PStr (u "7.00")).
  split; [reflexivity|]. split; [reflexivity|]. split; [|reflexivity].
  exists [(u "offers", PList [PDict [(u "price", PStr (u "7.00"))]])].
  split; [left; reflexivity|].
  right. exists [(u "price", PStr (u "7.00"))], []. split; reflexivity.
Defined.

(** ** Price, method 3: the group is a decimal numeral *)

Lemma greedy_carries (P : Re.span -> Prop) cls k :
  (forall s n m, k s n = Some m -> P m) ->
  forall s n m, Re.greedy cls k s n = Some m -> P m.
Proof.
  intros H s n m G.
  apply ReFacts.greedy_inv in G as (run & rest & _ & _ & K).
  exact (H _ _ _ K).
Qed.

(** A part without parentheses leaves the group as it found it. *)
Lemma rx_group_free p :
  group_free p = true ->
  forall gs ge s n m,
    Re.rx p gs ge s n = Some m -> Re.g_start m = gs /\ Re.g_end m = ge.
Proof.
  induction p as [|i p IH]; intros F gs ge s n m.
  - intros E. injection E as <-. auto.
  - destruct i as [cls q| |]; [|discriminate F|discriminate F].
    specialize (IH F). destruct q.
    + cbn [Re.rx]. destruct s as [|c s]; [discriminate|].
      destruct (cls c); [apply IH | discriminate].
    + rewrite rx_opt. destruct s as [|c s]; [apply IH|].
      destruct (cls c); [|apply IH].
      destruct (Re.rx p gs ge s (S n)) as [r|] eqn:G; [|apply IH].
      intros E. injection E as <-. exact (IH _ _ _ _ _ G).
    + rewrite rx_star.
      apply (greedy_carries (fun m => Re.g_start m = gs /\ Re.g_end m = ge)).
      apply IH.
    + rewrite rx_plus. destruct s as [|c s]; [discriminate|].
      destruct (cls c); [|discriminate].
      apply (greedy_carries (fun m => Re.g_start m = gs /\ Re.g_end m = ge)).
      apply IH.
Qed.

(** After a part without parentheses the rest of the pattern matches
    further on in the text. *)
Lemma rx_prefix_inv p1 p2 :
  group_free p1 = true ->
  forall gs ge s n m,
    Re.rx (p1 ++ p2) gs ge s n = Some m ->
    exists k, k <= length s /\
              Re.rx p2 gs ge (skipn k s) (n + k) = Some m.
Proof.
  induction p1 as [|i p1 IH]; intros F gs ge s n m.
  - intros E. exists 0. rewrite Nat.add_0_r. split; [lia | exact E].
  - destruct i as [cls q| |]; [|discriminate F|discriminate F].
    specialize (IH F).
    assert (step : forall c s', Re.rx (p1 ++ p2) gs ge s' (S n) = Some m ->
              exists k, k <= length (c :: s') /\
                Re.rx p2 gs ge (skipn k (c :: s')) (n + k) = Some m).
    { intros c s' E. destruct (IH _ _ _ _ _ E) as (k & L & R).
      exists (S k). cbn [skipn length].
      replace (n + S k) with (S n + k) by lia. split; [lia | exact R]. }
    assert (run_step : forall s0 n0,
              Re.greedy cls (Re.rx (p1 ++ p2) gs ge) s0 n0 = Some m ->
              exists k, k <= length s0 /\
                Re.rx p2 gs ge (skipn k s0) (n0 + k) = Some m).
    { intros s0 n0 G.
      apply ReFacts.greedy_inv in G as (run & rest & -> & _ & K).
      destruct (IH _ _ _ _ _ K) as (k & L & R).
      exists (length run + k). rewrite length_app.
      split; [lia|].
      rewrite skipn_app, skipn_all2 by lia.
      replace (length run + k - length run) with k by lia.
      cbn [app]. replace (n0 + (length run + k))
        with (n0 + length run + k) by lia.
      exact R. }
    change ((Re.Ch cls q :: p1) ++ p2) with (Re.Ch cls q :: (p1 ++ p2)).
    destruct q.
    + cbn [Re.rx]. destruct s as [|c s]; [discriminate|].
      destruct (cls c); [apply step | discriminate].
    + rewrite rx_opt. destruct s as [|c s]; [apply IH|].
      destruct (cls c); [|apply IH].
      destruct (Re.rx (p1 ++ p2) gs ge s (S n)) as [r|] eqn:G; [|apply IH].
      intros E. injection E as <-. apply step, G.
    + rewrite rx_star. apply run_step.
    + rewrite rx_plus. destruct s as [|c s]; [discriminate|].
      destruct (cls c); [|discriminate]. intros G.
      destruct (run_step _ _ G) as (k & L & R).
      exists (S k). cbn [skipn length].
      replace (n + S k) with (S n + k) by lia. split; [lia | exact R].
Qed.

(** The group of the raw-text patterns, where it starts in the text. *)
Lemma number_inv tail :
  group_free tail = true ->
  forall gs ge s n m,
    Re.rx (Patterns.number ++ tail) gs ge s n = Some m ->
    exists g, decimal_numeral g /\ Re.g_start m = n /\
              Re.g_end m = n + length g /\ firstn (length g) s = g.
Proof.
  intros F gs ge s n m. unfold Patterns.number. cbn [app].
  rewrite rx_open, rx_plus.
  destruct s as [|c s]; [discriminate|].
  destruct (isdecimal c) eqn:C; [|discriminate].
  intros G. apply ReFacts.greedy_inv in G as (run & rest & -> & R & K).
  assert (digits : forall rest1 pos dotpart,
            Re.greedy isdecimal (Re.rx (Re.Close :: tail) n ge) rest1 pos
            = Some m ->
            pos = S n + length run + length dotpart ->
            (dotpart = [] \/ dotpart = [Patterns.dot]) ->
            exists g, decimal_numeral g /\ Re.g_start m = n /\
              Re.g_end m = n + length g /\
              firstn (length g) (c :: run ++ dotpart ++ rest1) = g).
  { intros rest1 pos dotpart G -> Dot.
    apply ReFacts.greedy_inv in G as (d2 & rest2 & -> & D2 & E).
    cbn [Re.rx] in E. apply (rx_group_free tail F) in E as [E1 E2].
    exists ((c :: run) ++ dotpart ++ d2). split; [|split; [|split]].
    - exists (c :: run), d2. split; [discriminate|].
      split; [cbn [forallb]; rewrite C; exact R|]. split; [exact D2|].
      destruct Dot as [-> | ->]; [left | right]; reflexivity.
    - exact E1.
    - rewrite E2, !length_app. cbn [length]. lia.
    - change (c :: run ++ dotpart ++ d2 ++ rest2)
        with ((c :: run) ++ dotpart ++ d2 ++ rest2).
      rewrite !app_assoc. rewrite firstn_app, firstn_all, Nat.sub_diag.
      cbn [firstn]. apply app_nil_r. }
  rewrite rx_opt in K.
  replace (n + length (c :: run)) with (S n + length run) in K
    by (cbn [length]; lia).
  destruct rest as [|x rest'].
  - rewrite rx_star in K. apply (digits [] _ [] K); auto.
  - destruct (N.eqb_spec Patterns.dot x) as [<- | _].
    + destruct (Re.rx (Re.Ch isdecimal Re.Star :: Re.Close :: tail) n ge
                  rest' (S (S n + length run))) as [r|] eqn:G.
      * injection K as <-. rewrite rx_star in G.
        apply (digits rest' _ [Patterns.dot] G); auto.
        cbn [length]. lia.
      * rewrite rx_star in K.
        apply (digits (Patterns.dot :: rest') _ [] K); auto.
    + rewrite rx_star in K. apply (digits (x :: rest') _ [] K); auto.
Qed.

Lemma price_patterns_numbered q :
  In q Patterns.price_patterns -> numbered q.
Proof.
  intros [<- | [<- | [<- | [<- | []]]]].
  - exists (firstn (length Patterns.price_current - 5) Patterns.price_current),
      []. repeat split.
  - exists (firstn (length Patterns.currentPrice - 5) Patterns.currentPrice),
      []. repeat split.
  - exists (firstn (length Patterns.price_number - 5) Patterns.price_number),
      []. repeat split.
  - exists (firstn (length Patterns.price_loose - 6) Patterns.price_loose),
      [Re.Ch (N.eqb dq) Re.Opt]. repeat split.
Qed.

Lemma numbered_group q html m :
  numbered q -> Re.search q html = Some m -> decimal_numeral (Re.group1 m).
Proof.
  intros (p1 & tail & -> & F1 & F2) S.
  apply ReFacts.search_inv in S as (pre & rest & sp & _ & M & ->).
  unfold Re.match_here in M.
  apply (rx_prefix_inv p1 _ F1) in M as (k & L & M).
  apply (number_inv tail F2) in M as (g & N & Gs & Ge & Fg).
  cbn [Re.mk_match Re.group1]. unfold Re.slice. rewrite Gs, Ge.
  cbn [Nat.add].
  replace (k + length g - k) with (length g) by lia.
  rewrite Fg. exact N.
Qed.

Lemma pattern_scan_inv ps html p :
  pattern_scan ps html = Some p ->
  exists q m, In q ps /\ Re.search q html = Some m /\
              p = prefix_dollar (Re.group1 m).
Proof.
  induction ps as [|q ps IH]; simpl; [discriminate|].
  destruct (Re.search q html) as [m|] eqn:S.
  - intros E. injection E as <-. exists q, m. auto.
  - intros E. destruct (IH E) as (q' & m & I & S' & ->).
    exists q', m. auto.
Qed.

Lemma selector_match_digit s m :
  Re.match_here Patterns.selector_price s = Some m ->
  exists d, In d (Re.group0 (Re.mk_match s m)) /\ isdecimal d = true.
Proof.
  unfold Re.match_here. cbn [Re.mk_match Re.group0].
  change Patterns.selector_price
    with (Re.Ch Patterns.currency Re.Opt :: after_symbol).
  rewrite rx_opt.
  assert (plain : forall t k r,
    Re.rx after_symbol 0 0 t k = Some r ->
    exists d, In d (firstn (Re.m_end r - k) t) /\ isdecimal d = true).
  { intros t k r G.
    apply after_symbol_shape in G as (run & d & t' & -> & _ & D & B).
    rewrite firstn_past by lia. exists d. split; [|exact D].
    apply in_elt. }
  assert (plain0 : forall t,
    Re.rx after_symbol 0 0 t 0 = Some m ->
    exists d, In d (firstn (Re.m_end m) t) /\ isdecimal d = true).
  { intros t G. apply plain in G. rewrite Nat.sub_0_r in G. exact G. }
  destruct s as [|c s]; [apply plain0|].
  destruct (Patterns.currency c); [|apply plain0].
  destruct (Re.rx after_symbol 0 0 s 1) as [r|] eqn:G; [|apply plain0].
  intros E. injection E as <-.
  pose proof (ReFacts.rx_bounded _ _ _ _ _ _ G) as B.
  destruct (plain _ _ _ G) as (d & I & D). exists d. split; [|exact D].
  replace (Re.m_end r) with (S (Re.m_end r - 1)) by lia.
  cbn [firstn]. right. exact I.
Qed.

Lemma method2_none soup prior :
  price_method2 soup prior = None ->
  prior = None /\
  found_with (find (meta_property "product:price:amount") soup) "content"
  = false.
Proof.
  unfold price_method2. destruct prior as [[|a q]|]; cbn [truthy nonempty negb];
    try discriminate.
  - destruct (found_with _ _); discriminate.
  - destruct (found_with _ _); [discriminate | auto].
Qed.

Lemma method3_none html prior :
  price_method3 html prior = None ->
  prior = None /\ pattern_scan Patterns.price_patterns html = None.
Proof.
  unfold price_method3. destruct prior as [[|a q]|]; cbn [truthy nonempty negb];
    try discriminate.
  - destruct (pattern_scan _ _); discriminate.
  - destruct (pattern_scan _ _); [discriminate | auto].
Qed.

Lemma pattern_scan_none ps html :
  pattern_scan ps html = None <->
  Forall (fun q => Re.search q html = None) ps.
Proof.
  induction ps as [|q ps IH]; simpl.
  - split; [constructor | reflexivity].
  - destruct (Re.search q html) eqn:S.
    + split; [discriminate|]. intros F. inversion F; congruence.
    + rewrite IH. split.
      * intros F. constructor; assumption.
      * intros F. inversion F; assumption.
Qed.

Lemma selector_scan_none_iff elems :
  selector_scan elems = None <->
  Forall (fun c => selector_price_of c = None) elems.
Proof.
  split; [|apply selector_scan_none].
  induction elems as [|c elems IH]; simpl; [constructor|].
  destruct (selector_price_of c) eqn:Q; [discriminate|].
  intros E. constructor; [exact Q | exact (IH E)].
Qed.

Section PriceShape.
Variable json_loads : str -> result pyval.
Variable py_format : pyval -> str.

Local Abbreviation price_method1 := (price_method1 json_loads py_format).
Local Abbreviation extract_price := (extract_price json_loads py_format).
Local Abbreviation methods123 := (methods123 json_loads py_format).

(** X8: a price assigned by method 3 is the dollar sign followed by a
    decimal numeral: one or more decimal digits, then possibly a dot,
    then decimal digits, whichever of the four patterns matched. *)
Theorem raw_text_price_numeral (soup : Soup) (html_text : str) (p : str) :
  price_method2 soup (price_method1 soup) = None ->
  methods123 soup html_text = Some p ->
  extract_price soup html_text = Some p /\
  exists g, p = Patterns.dollar :: g /\ decimal_numeral g.
Proof.
  intros M2 M3.
  assert (S : pattern_scan Patterns.price_patterns html_text = Some p).
  { revert M3.
    change (methods123 soup html_text)
      with (price_method3 html_text
              (price_method2 soup (price_method1 soup))).
    unfold price_method3. rewrite M2. cbn [truthy negb].
    destruct (pattern_scan _ _); [auto | discriminate]. }
  destruct (pattern_scan_inv _ _ _ S) as (q & m & I & Sq & ->).
  split.
  - unfold Engine.extract_price.
    change (price_method3 html_text (price_method2 soup (price_method1 soup)))
      with (methods123 soup html_text).
    rewrite M3. apply method4_keeps. reflexivity.
  - exists (Re.group1 m). split; [reflexivity|].
    exact (numbered_group q html_text m (price_patterns_numbered q I) Sq).
Qed.

(** X9: the price is absent exactly when all four methods fail: no
    JSON-LD block assigns one, the product:price:amount meta element has
    no content, none of the four patterns has a match in the raw text,
    and none of the five selector candidates gives one.  A price that is
    assigned is never the empty string. *)
Theorem price_absent_iff (soup : Soup) (html_text : str) :
  (extract_price soup html_text = None <->
   price_method1 soup = None /\
   found_with (find (meta_property "product:price:amount") soup) "content"
   = false /\
   Forall (fun q => Re.search q html_text = None) Patterns.price_patterns /\
   Forall (fun c => selector_price_of c = None) (price_selectors soup)) /\
  (forall p, extract_price soup html_text = Some p -> p <> []).
Proof.
  split; [split|].
  - intros E.
    destruct (extract_price_cases json_loads py_format soup html_text)
      as [(r & _ & X)|(M & X)]; [congruence|].
    rewrite X in E. apply selector_scan_none_iff in E.
    apply method3_none in M as [M P]. apply method2_none in M as [M F].
    apply pattern_scan_none in P. auto.
  - intros (M1 & F & P & S). unfold Engine.extract_price.
    rewrite M1. unfold price_method2. cbn [truthy negb]. rewrite F.
    unfold price_method3. cbn [truthy negb].
    apply pattern_scan_none in P. rewrite P.
    unfold price_method4. cbn [truthy negb].
    apply selector_scan_none_iff in S. rewrite S. reflexivity.
  - intros p E.
    destruct (extract_price_cases json_loads py_format soup html_text)
      as [(r & _ & X)|(_ & X)]; rewrite X in E.
    + injection E as <-. discriminate.
    + destruct (selector_scan_inv _ _ E) as (b & cand & a & _ & _ & P).
      apply selector_price_of_spec in P as (e & txt & m & _ & _ & _ & S & ->).
      destruct (selector_search_head _ _ S) as (c & rest & -> & _).
      discriminate.
Qed.

(** X10: a price assigned by method 4 has no white space at either end
    and contains a decimal digit. *)
Theorem selector_price_shape (soup : Soup) (html_text : str) (p : str) :
  methods123 soup html_text = None ->
  extract_price soup html_text = Some p ->
  strip p = p /\
  (forall c r, p = c :: r -> isspace c = false) /\
  (forall r c, p = r ++ [c] -> isspace c = false) /\
  exists d, In d p /\ isdecimal d = true.
Proof.
  intros M E.
  destruct (extract_price_cases json_loads py_format soup html_text)
    as [(r & M' & _)|(_ & X)]; [congruence|].
  rewrite X in E.
  destruct (selector_scan_inv _ _ E) as (b & cand & a & _ & _ & P).
  apply selector_price_of_spec in P as (e & txt & m & _ & _ & _ & S & ->).
  split; [apply strip_strip|]. split; [|split].
  - intros c r H. exact (strip_head_visible _ _ _ H).
  - intros r c H. exact (strip_last_visible _ _ _ H).
  - apply ReFacts.search_inv in S as (pre & rest & sp & _ & Mh & ->).
    destruct (selector_match_digit _ _ Mh) as (d & I & D).
    exists d. split; [|exact D].
    apply strip_keeps_visible; [exact I | apply decimal_not_space, D].
Qed.

End PriceShape.

(** X8 at the body of the specification's example: the numeral is 9.99. *)
Lemma raw_text_price_numeral_witness :
  extract_price Fixture.json_loads Fixture.py_format []
    (Fixture.current_price_raw "9.99") = Some (u "$9.99") /\
  exists g, u "$9.99" = Patterns.dollar :: g /\ decimal_numeral g.
Proof.
  exact (raw_text_price_numeral Fixture.json_loads Fixture.py_format []
           (Fixture.current_price_raw "9.99") (u "$9.99") eq_refl eq_refl).
Defined.

(** X9 at a page that holds a title only: no price. *)
Lemma price_absent_iff_witness :
  extract_price Fixture.json_loads Fixture.py_format
    Fixture.title_page Fixture.title_raw = None.
Proof.
  apply (proj2 (proj1 (price_absent_iff Fixture.json_loads Fixture.py_format
                         Fixture.title_page Fixture.title_raw))).
  split; [reflexivity|]. split; [reflexivity|].
  split; repeat (constructor; [reflexivity|]); constructor.
Defined.

(** X10 at the page whose price stands in a span element. *)
Lemma selector_price_shape_witness :
  strip (u "19.99") = u "19.99" /\
  (forall c r, u "19.99" = c :: r -> isspace c = false) /\
  (forall r c, u "19.99" = r ++ [c] -> isspace c = false) /\
  exists d, In d (u "19.99") /\ isdecimal d = true.
Proof.
  exact (selector_price_shape Fixture.json_loads Fixture.py_format
           Fixture.span_price_page Fixture.span_price_raw (u "19.99")
           eq_refl eq_refl).
Defined.

(** ** The handler: envelope, echo and documentation *)

Section HandlerFacts.
Variable requests_get : str -> result Response.
Variable BeautifulSoup : list Byte.byte -> result Soup.
Variable json_loads : str -> result pyval.
Variable py_format : pyval -> str.
Variable urljoin : str -> str -> result str.

Local Abbreviation extract_product_info :=
  (extract_product_info requests_get BeautifulSoup json_loads py_format
     urljoin).
Local Abbreviation api_extract_product :=
  (api_extract_product requests_get BeautifulSoup json_loads py_format
     urljoin).

(** The three shapes of a run of the handler. *)
Lemma handler_cases arg :
  (truthy arg = false /\
   api_extract_product arg
   = {| body := missing_url_body; status := 400; engine_calls := [] |}) \/
  (exists url, arg = Some url /\ url <> [] /\
     ((exists p, extract_product_info url = Some p /\
                 api_extract_product arg
                 = {| body := success_body p; status := 200;
                      engine_calls := [url] |}) \/
      api_extract_product arg
      = {| body := failure_body url; status := 404;
           engine_calls := [url] |})).
Proof.
  unfold Engine.api_extract_product.
  destruct arg as [[|a url]|]; cbn [truthy nonempty negb]; auto.
  right. exists (a :: url). split; [reflexivity|].
  split; [discriminate|].
  destruct (extract_product_info (a :: url)) as [p|]; [|auto].
  destruct (truthy (image p) || truthy (title p)); [|auto].
  left. exists p. auto.
Qed.

(** X11: every answer of the /extract handler has status 200, 400 or
    404; its success field is a boolean that is true exactly for 200; it
    has an error field exactly when the status is not 200, and a data
    field exactly when the status is not 400; and the status is 400
    exactly when the url parameter is missing or empty. *)
Theorem handler_envelope (arg : option str) :
  let run := api_extract_product arg in
  (status run = 200 \/ status run = 400 \/ status run = 404)%Z /\
  field "success" (body run) = Some (PBool (status run =? 200)%Z) /\
  (field "error" (body run) = None <-> status run = 200%Z) /\
  (field "data" (body run) = None <-> status run = 400%Z) /\
  (status run = 400%Z <-> truthy arg = false).
Proof.
  cbv zeta.
  destruct (handler_cases arg)
    as [(T & ->) | (url & -> & N & [(p & _ & ->) | ->])];
    cbn [status body].
  - split; [auto|]. split; [reflexivity|].
    split; [split; discriminate|]. split; [split; reflexivity|].
    split; [intros _; exact T | reflexivity].
  - split; [auto|]. split; [reflexivity|].
    split; [split; reflexivity|]. split; [split; discriminate|].
    split; [discriminate|]. destruct url; [congruence | discriminate].
  - split; [auto|]. split; [reflexivity|].
    split; [split; discriminate|]. split; [split; discriminate|].
    split; [discriminate|]. destruct url; [congruence | discriminate].
Qed.

(** X12: whenever the url parameter is given and not empty, the data
    payload of the answer, success or failure, echoes it unchanged in its
    url field. *)
Theorem handler_echoes_url (url : str) :
  url <> [] ->
  at_path [u "data"; u "url"] (body (api_extract_product (Some url)))
  = Some (PStr url).
Proof.
  intros N.
  destruct (handler_cases (Some url))
    as [(T & _) | (url' & E & _ & [(p & X & ->) | ->])].
  - destruct url; [congruence | discriminate T].
  - injection E as <-. cbn [body].
    destruct (extract_info_inv _ _ _ _ _ _ _ X)
      as (r & soup & img & _ & _ & _ & _ & ->).
    reflexivity.
  - injection E as <-. reflexivity.
Qed.

(** X13: the documentation served at / agrees with the /extract
    handler: whenever an answer carries a data payload, its fields are
    the five documented ones, in the documented order, and the success
    field is a boolean as documented; and the health endpoint reports the
    service name and version of the documentation, with status 200. *)
Theorem home_documents_extract (arg : option str) :
  let run := api_extract_product arg in
  let documented :=
    at_path [u "endpoints"; u "GET /extract"; u "response"; u "data"]
      (fst Service.home) in
  (field "data" (body run) = None \/
   keys (field "data" (body run)) = keys documented) /\
  keys documented
  = [u "title"; u "price"; u "image"; u "description"; u "url"] /\
  (exists b, field "success" (body run) = Some (PBool b)) /\
  at_path [u "endpoints"; u "GET /extract"; u "response"; u "success"]
    (fst Service.home)
  = Some (PStr (u "boolean")) /\
  field "service" (fst Service.health_check)
  = field "name" (fst Service.home) /\
  field "version" (fst Service.health_check)
  = field "version" (fst Service.home) /\
  snd Service.health_check = 200%Z /\ snd Service.home = 200%Z.
Proof.
  cbv zeta.
  split; [|split; [reflexivity|split; [|repeat split]]].
  - destruct (handler_cases arg)
      as [(T & ->) | (url & -> & N & [(p & _ & ->) | ->])];
      [left | right | right]; reflexivity.
  - destruct (handler_cases arg)
      as [(T & ->) | (url & -> & N & [(p & _ & ->) | ->])];
      eexists; reflexivity.
Qed.

End HandlerFacts.

(** X12 at a page that holds a title: the answer is a success and its
    url field is the url asked for. *)
Lemma handler_echoes_url_witness :
  status (api_extract_product (Fixture.serve 200 Fixture.title_raw)
            (Fixture.parsed Fixture.title_page)
            Fixture.json_loads Fixture.py_format Fixture.urljoin
            (Some Fixture.base_url)) = 200%Z /\
  at_path [u "data"; u "url"]
    (body (api_extract_product (Fixture.serve 200 Fixture.title_raw)
             (Fixture.parsed Fixture.title_page)
             Fixture.json_loads Fixture.py_format Fixture.urljoin
             (Some Fixture.base_url)))
  = Some (PStr Fixture.base_url).
Proof.
  split; [reflexivity|].
  apply (handler_echoes_url (Fixture.serve 200 Fixture.title_raw)
           (Fixture.parsed Fixture.title_page)
           Fixture.json_loads Fixture.py_format Fixture.urljoin
           Fixture.base_url).
  intros X. discriminate X.
Defined.

(** X13 at the request of the documented example: for a page that holds
    the four documented values, the answer is the documented response. *)
Lemma home_documents_extract_witness :
  Some (body (api_extract_product
                (Fixture.serve 200 [])
                (Fixture.parsed Examples.documented_page)
                Fixture.json_loads Fixture.py_format Fixture.urljoin
                (Some Examples.documented_url)))
  = at_path [u "example_usage"; u "response"] (fst Service.home) /\
  keys (field "data"
          (body (api_extract_product
                   (Fixture.serve 200 [])
                   (Fixture.parsed Examples.documented_page)
                   Fixture.json_loads Fixture.py_format Fixture.urljoin
                   (Some Examples.documented_url))))
  = [u "title"; u "price"; u "image"; u "description"; u "url"].
Proof.
  split; [reflexivity|].
  destruct (home_documents_extract
              (Fixture.serve 200 [])
              (Fixture.parsed Examples.documented_page)
              Fixture.json_loads Fixture.py_format Fixture.urljoin
              (Some Examples.documented_url)) as ([H | H] & K & _).
  - discriminate H.
  - rewrite H. exact K.
Defined.
